(** * Payroll computation engine of the HR admin portal

    A shallow embedding of [backend_python/services/payroll_agent.py]
    (class [PayrollAgent]) and of the load guard of
    [backend_python/services/payroll_service.py], followed by the
    properties that the engine's specification states about them.

    Modelling conventions.
    - Python numbers are exact: a number is a rational, an infinity or the
      float NaN (the value pandas gives to an empty cell); an [int] and a
      [float] of the same value are one number. The rounding error of
      binary arithmetic, overflow of an arithmetic result and signed zeros
      are outside the model; the properties that compare the prorated
      gross with a bound are therefore stated over the value that line 121
      leaves, whatever it is. That an [int] beyond the range of a float
      cannot enter float arithmetic is modelled for the days of the month,
      the one [int] that comes from a cell, and not for policy values.
    - Text is a [string] whose characters are the code points below 256
      (Latin-1); [str.lower], white space and decimal digits are Python's
      on these characters.
    - A column label is text or some other value (a number, a date); the
      labels of a table are distinct, as [read_excel] delivers them; a
      pandas row is the list of its (label text, cell) pairs in column
      order.
    - Exceptions are values: a computation returns [Return v] or
      [Raise e]; a message is kept without the part that quotes the
      offending value. [print] calls are not modelled.
    - The text Python prints for a number ([str], [repr]) is a parameter,
      [str_num], of the definitions that print one.
    - The world outside the process is a parameter: [disk] for the
      workbooks, [open_error] for what opening a path for writing raises,
      [clock] for the month label [datetime.now()] gives at each row. *)

From Stdlib Require Import ZArith QArith Qround String Ascii List Bool Lia Lqa.
From stdpp Require Import base option list gmap strings.

Import ListNotations.
Local Open Scope string_scope.
Local Open Scope list_scope.
Local Open Scope Z_scope.

(** ** Exceptions and outcomes *)

Inductive exn : Type :=
| KeyError (key : string)
| ValueError (msg : string)
| TypeError (msg : string)
| ZeroDivisionError (msg : string)
| IndexError (msg : string)
| OverflowError (msg : string)
| AttributeError
| FileNotFoundError (path : string)
| OSError (msg : string).

Inductive outcome (A : Type) : Type :=
| Return (a : A)
| Raise (e : exn).

Arguments Return {A} a.
Arguments Raise {A} e.

#[global] Instance outcome_ret : MRet outcome := fun A a => Return a.

#[global] Instance outcome_bind : MBind outcome := fun A B k m =>
  match m with
  | Return a => k a
  | Raise e => Raise e
  end.

(** [try: body except Exception as e: handler] *)
Definition try_except {A : Type} (body : outcome A) (handler : exn -> outcome A)
  : outcome A :=
  match body with
  | Return a => Return a
  | Raise e => handler e
  end.

Definition raises {A : Type} (m : outcome A) : Prop := exists e, m = Raise e.

(** ** Numbers *)

(** A finite number, an infinity ([negative] for [-inf]) or NaN. *)
Inductive num : Type :=
| Fin (q : Q)
| Inf (negative : bool)
| NaN.

Definition num_of_Z (z : Z) : num := Fin (inject_Z z).

Definition is_negative (q : Q) : bool := negb (Qle_bool 0 q).

Definition num_add (a b : num) : num :=
  match a, b with
  | Fin x, Fin y => Fin (Qred (x + y))
  | Inf s, Inf t => if Bool.eqb s t then Inf s else NaN
  | Inf s, Fin _ => Inf s
  | Fin _, Inf t => Inf t
  | _, _ => NaN
  end.

Definition num_sub (a b : num) : num :=
  match a, b with
  | Fin x, Fin y => Fin (Qred (x - y))
  | Inf s, Inf t => if Bool.eqb s t then NaN else Inf s
  | Inf s, Fin _ => Inf s
  | Fin _, Inf t => Inf (negb t)
  | _, _ => NaN
  end.

Definition num_mul (a b : num) : num :=
  match a, b with
  | Fin x, Fin y => Fin (Qred (x * y))
  | Inf s, Inf t => Inf (xorb s t)
  | Inf s, Fin y => if Qeq_bool y 0 then NaN else Inf (xorb s (is_negative y))
  | Fin x, Inf t => if Qeq_bool x 0 then NaN else Inf (xorb (is_negative x) t)
  | _, _ => NaN
  end.

Definition is_zero (a : num) : bool :=
  match a with
  | Fin x => Qeq_bool x 0
  | _ => false
  end.

(** The quotient by a divisor that is not zero. *)
Definition num_quot (a b : num) : num :=
  match a, b with
  | Fin x, Fin y => Fin (Qred (x / y))
  | Fin _, Inf _ => Fin 0
  | Inf s, Fin y => Inf (xorb s (is_negative y))
  | _, _ => NaN
  end.

(** Python's [a / b]: a zero divisor raises whatever the dividend is. *)
Definition num_div (a b : num) : outcome num :=
  if is_zero b then Raise (ZeroDivisionError "float division by zero")
  else Return (num_quot a b).

(** Comparisons with NaN are all false. *)
Definition num_leb (a b : num) : bool :=
  match a, b with
  | Fin x, Fin y => Qle_bool x y
  | Inf s, Inf t => s || negb t
  | Inf s, Fin _ => s
  | Fin _, Inf t => negb t
  | _, _ => false
  end.

Definition num_ltb (a b : num) : bool :=
  match a, b with
  | Fin x, Fin y => negb (Qle_bool y x)
  | Inf s, Inf t => s && negb t
  | Inf s, Fin _ => s
  | Fin _, Inf t => negb t
  | _, _ => false
  end.

Definition num_eqb (a b : num) : bool :=
  match a, b with
  | Fin x, Fin y => Qeq_bool x y
  | Inf s, Inf t => Bool.eqb s t
  | _, _ => false
  end.

(** The integers that [float(n)] cannot take: from [2^1024 - 2^970] on
    the nearest float is an infinity, and the conversion raises. *)
Definition float_limit : Z := 2 ^ 1024 - 2 ^ 970.

(** The conversion of an [int] operand in float arithmetic. *)
Definition float_of_int (z : Z) : outcome num :=
  if float_limit <=? Z.abs z
  then Raise (OverflowError "int too large to convert to float")
  else Return (num_of_Z z).

(** Python's two-argument [min(a, b)]: [b] only when [b < a]. *)
Definition py_min (a b : num) : num := if num_ltb b a then b else a.

(** [round(x, ndigits)]: to the nearest multiple of [10^-ndigits], ties to
    the even one. *)
Definition round_half_even (q : Q) : Z :=
  let f := Qfloor q in
  let r := (q - inject_Z f)%Q in
  if Qle_bool r (1 # 2)
  then if Qeq_bool r (1 # 2) then (if Z.even f then f else f + 1) else f
  else f + 1.

Definition py_round (ndigits : nat) (a : num) : num :=
  match a with
  | Fin q =>
      let scale := Z.pow 10 (Z.of_nat ndigits) in
      Fin (Qred (inject_Z (round_half_even (q * inject_Z scale)) / inject_Z scale))
  | Inf s => Inf s
  | NaN => NaN
  end.

(** [int(x)] on a float: truncation toward zero. *)
Definition truncate (q : Q) : Z := Z.quot (Qnum q) (Zpos (Qden q)).

(** ** Text *)

(** The upper-case letters below 256: A-Z, and the accented capitals
    192-222 without the multiplication sign 215. Each has its lower-case
    form 32 places on. *)
Definition is_upper (c : ascii) : bool :=
  let n := nat_of_ascii c in
  ((65 <=? n)%nat && (n <=? 90)%nat) ||
  ((192 <=? n)%nat && (n <=? 222)%nat && negb (n =? 215)%nat).

Definition lower_char (c : ascii) : ascii :=
  if is_upper c then ascii_of_nat (nat_of_ascii c + 32) else c.

Fixpoint lower (s : string) : string :=
  match s with
  | EmptyString => EmptyString
  | String c t => String (lower_char c) (lower t)
  end.

(** [needle in hay] *)
Fixpoint contains (needle hay : string) : bool :=
  String.prefix needle hay ||
  match hay with
  | EmptyString => false
  | String _ t => contains needle t
  end.

(** [s.replace(old, new)] for one-character [old] and [new]. *)
Fixpoint replace_char (old new : ascii) (s : string) : string :=
  match s with
  | EmptyString => EmptyString
  | String c t =>
      String (if Ascii.eqb c old then new else c) (replace_char old new t)
  end.

Definition is_digit (c : ascii) : bool :=
  let n := nat_of_ascii c in (48 <=? n)%nat && (n <=? 57)%nat.

(** The characters the pattern [\s] matches: those [str.isspace] holds of. *)
Definition is_space (c : ascii) : bool :=
  let n := nat_of_ascii c in
  ((9 <=? n)%nat && (n <=? 13)%nat) || ((28 <=? n)%nat && (n <=? 32)%nat) ||
  (n =? 133)%nat || (n =? 160)%nat.

(** The characters [float] and [int] strip from both ends of their text:
    the white space of C, and the white space above 127. *)
Definition is_strip_space (c : ascii) : bool :=
  let n := nat_of_ascii c in
  ((9 <=? n)%nat && (n <=? 13)%nat) || (n =? 32)%nat ||
  (n =? 133)%nat || (n =? 160)%nat.

Definition digit_value (c : ascii) : Z := Z.of_nat (nat_of_ascii c - 48).

(** Value of a run of decimal digits, most significant first. *)
Fixpoint digits_value (acc : Z) (s : string) : Z :=
  match s with
  | EmptyString => acc
  | String c t => digits_value (10 * acc + digit_value c) t
  end.

(** ** Python's [float(text)] and [int(text)]

    The grammar of the built-ins on decimal text: surrounding white space,
    a sign, digits with single underscores between them, a fraction, an
    exponent, and the spellings [nan], [inf] and [infinity] in any letter
    case. [int] refuses more than 4300 digits. *)

Fixpoint lstrip (l : list ascii) : list ascii :=
  match l with
  | c :: t => if is_strip_space c then lstrip t else l
  | [] => []
  end.

Definition strip (l : list ascii) : list ascii := rev (lstrip (rev (lstrip l))).

(** The rest of a digit part once a digit has been read: the digits read
    and the remaining input. *)
Fixpoint digitpart_rest (l : list ascii) : list ascii * list ascii :=
  match l with
  | c :: t =>
      if is_digit c
      then let (d, r) := digitpart_rest t in (c :: d, r)
      else if Ascii.eqb c "_"
      then match t with
           | c' :: t' =>
               if is_digit c'
               then let (d, r) := digitpart_rest t' in (c' :: d, r)
               else ([], l)
           | [] => ([], l)
           end
      else ([], l)
  | [] => ([], [])
  end.

Definition digitpart (l : list ascii) : option (list ascii * list ascii) :=
  match l with
  | c :: t => if is_digit c
              then let (d, r) := digitpart_rest t in Some (c :: d, r)
              else None
  | [] => None
  end.

Definition sign_of (l : list ascii) : bool * list ascii :=
  match l with
  | c :: t => if Ascii.eqb c "-" then (true, t)
              else if Ascii.eqb c "+" then (false, t)
              else (false, l)
  | [] => (false, [])
  end.

Definition digits_Z (d : list ascii) : Z :=
  digits_value 0 (string_of_list_ascii d).

Definition apply_sign (neg : bool) (z : Z) : Z := if neg then - z else z.

(** [int(text)], base ten. *)
Definition int_of_text (s : string) : option Z :=
  let (neg, l) := sign_of (strip (list_ascii_of_string s)) in
  match digitpart l with
  | Some (d, []) =>
      if (length d <=? 4300)%nat then Some (apply_sign neg (digits_Z d))
      else None
  | _ => None
  end.

(** Mantissa digits and the number of them after the point. *)
Definition mantissa (l : list ascii) : option (list ascii * nat * list ascii) :=
  match digitpart l with
  | Some (i, r) =>
      match r with
      | c :: r' =>
          if Ascii.eqb c "."
          then match digitpart r' with
               | Some (f, r'') => Some (i ++ f, length f, r'')
               | None => Some (i, 0%nat, r')
               end
          else Some (i, 0%nat, r)
      | [] => Some (i, 0%nat, [])
      end
  | None =>
      match l with
      | c :: r' =>
          if Ascii.eqb c "."
          then match digitpart r' with
               | Some (f, r'') => Some (f, length f, r'')
               | None => None
               end
          else None
      | [] => None
      end
  end.

Definition exponent (l : list ascii) : option Z :=
  match l with
  | [] => Some 0
  | c :: t =>
      if Ascii.eqb c "e" || Ascii.eqb c "E"
      then let (neg, t') := sign_of t in
           match digitpart t' with
           | Some (d, []) => Some (apply_sign neg (digits_Z d))
           | _ => None
           end
      else None
  end.

(** The float for the decimal [m * 10^e], [m] not negative, with the sign
    [neg]: an infinity from the bound of [float_of_int] on, zero up to half
    the smallest float, [2^-1075], and the decimal itself between them. *)
Definition float_of_decimal (neg : bool) (m e : Z) : num :=
  let v := Qred (inject_Z m * Qpower 10 e) in
  if Qle_bool (inject_Z float_limit) v then Inf neg
  else if Qle_bool (v * inject_Z (2 ^ 1075)) 1 then Fin 0
  else Fin (if neg then Qred (- v) else v).

(** [float(text)] *)
Definition float_of_text (s : string) : option num :=
  let (neg, l) := sign_of (strip (list_ascii_of_string s)) in
  let word := lower (string_of_list_ascii l) in
  if String.eqb word "nan" then Some NaN
  else if String.eqb word "inf" || String.eqb word "infinity" then Some (Inf neg)
  else
    match mantissa l with
    | Some (d, frac, r) =>
        match exponent r with
        | Some e => Some (float_of_decimal neg (digits_Z d) (e - Z.of_nat frac))
        | None => None
        end
    | None => None
    end.

(** ** Cells, rows and tables *)

(** What a spreadsheet cell holds once pandas has read it: a number (NaN
    for an empty cell), text, or [None]. Other cell values (dates,
    booleans) are not modelled. *)
Inductive Cell : Type :=
| CNum (x : num)
| CText (s : string)
| CNone.

(** [pandas.isna] *)
Definition is_na (c : Cell) : bool :=
  match c with
  | CNum NaN => true
  | CNone => true
  | _ => false
  end.

(** [float(v)] *)
Definition py_float (v : Cell) : outcome num :=
  match v with
  | CNum x => Return x
  | CText s =>
      match float_of_text s with
      | Some x => Return x
      | None => Raise (ValueError "could not convert string to float")
      end
  | CNone => Raise (TypeError "float() argument must be a string or a real number")
  end.

(** [int(v)] *)
Definition py_int (v : Cell) : outcome Z :=
  match v with
  | CNum (Fin q) => Return (truncate q)
  | CNum (Inf _) => Raise (OverflowError "cannot convert float infinity to integer")
  | CNum NaN => Raise (ValueError "cannot convert float NaN to integer")
  | CText s =>
      match int_of_text s with
      | Some z => Return z
      | None => Raise (ValueError "invalid literal for int() with base 10")
      end
  | CNone => Raise (TypeError "int() argument must be a string or a real number")
  end.

(** A row ([pandas.Series]): for every column the text [str(col)] of its
    label, paired with the cell, in column order. *)
Definition Row : Type := list (string * Cell).

(** A column label as [read_excel] makes it from a header cell: text, or
    another value (a number, a date), of which the text [str] gives is
    kept. *)
Inductive Label : Type :=
| LText (s : string)
| LOther (shown : string).

Definition label_str (col : Label) : string :=
  match col with
  | LText s => s
  | LOther shown => shown
  end.

(** The labels of a header whose cells are all text. *)
Definition text_labels (header : list string) : list Label := map LText header.

Record DataFrame : Type := {
  columns : list Label;
  rows : list (list Cell)
}.

(** [pd.DataFrame()] *)
Definition empty_frame : DataFrame := {| columns := []; rows := [] |}.

(** [df.empty]: some axis has length zero. *)
Definition df_empty (df : DataFrame) : bool :=
  match columns df, rows df with
  | [], _ => true
  | _, [] => true
  | _, _ => false
  end.

(** The row that [iterrows], [apply(axis=1)] and [iloc] hand out. *)
Definition series (df : DataFrame) (cells : list Cell) : Row :=
  combine (map label_str (columns df)) cells.

(** [df.iloc[0]] *)
Definition iloc0 (df : DataFrame) : outcome Row :=
  match rows df with
  | cells :: _ => Return (series df cells)
  | [] => Raise (IndexError "single positional indexer is out-of-bounds")
  end.

(** [r.values] *)
Definition values (r : Row) : list Cell := map snd r.

(** [df.dropna(how='all').reset_index(drop=True)] *)
Definition dropna_all (df : DataFrame) : DataFrame :=
  {| columns := columns df;
     rows := List.filter (fun r => negb (forallb is_na r)) (rows df) |}.

(** ** Column resolver: the closure [get] of [calculate_payroll] *)

(** [any(k.lower() in str(col).lower() for k in col_keywords)] *)
Definition label_matches (col_keywords : list string) (col : string) : bool :=
  existsb (fun k => contains (lower k) (lower col)) col_keywords.

(** [get(col_keywords, default)] over the row [emp_row]. *)
Fixpoint get (emp_row : Row) (col_keywords : list string) (default : Cell) : Cell :=
  match emp_row with
  | [] => default
  | (col, v) :: rest =>
      if label_matches col_keywords col then v
      else get rest col_keywords default
  end.

(** The closure takes [col_keywords] and an optional [default]; lines
    115-118 call it with a row in front of them, three positional
    arguments, which Python refuses at the call. *)
Definition get_3_args (att : Row) (col_keywords : list string) (default : Cell)
  : outcome Cell :=
  Raise (TypeError "get() takes from 1 to 2 positional arguments but 3 were given").

(** ** Policies and the agent *)

Record Policies : Type := {
  pf_rate : num;
  pf_cap : num;
  esi_employee_rate : num;
  esi_threshold : num;
  pt_amount : num;
  leave_encashment : bool;
  encash_max_days : num
}.

Record PayrollAgent : Type := {
  payslip_dir : string;
  data : gmap string DataFrame;
  policies : Policies
}.

Definition default_policies : Policies := {|
  pf_rate := Fin (12 # 100);
  pf_cap := Fin 1800;
  esi_employee_rate := Fin (75 # 10000);
  esi_threshold := Fin 21000;
  pt_amount := Fin 200;
  leave_encashment := false;
  encash_max_days := Fin 10
|}.

(** [PayrollAgent.__init__] *)
Definition init (payslip_output_dir : string) : PayrollAgent := {|
  payslip_dir := payslip_output_dir;
  data := ∅;
  policies := default_policies
|}.

(** [self.data[key]] *)
Definition data_item (self : PayrollAgent) (key : string) : outcome DataFrame :=
  match data self !! key with
  | Some df => Return df
  | None => Raise (KeyError key)
  end.

Definition set_policies (self : PayrollAgent) (p : Policies) : PayrollAgent :=
  {| payslip_dir := payslip_dir self; data := data self; policies := p |}.

(** ** Policy notes: [update_policy] *)

Fixpoint skip_spaces (s : string) : string :=
  match s with
  | String c t => if is_space c then skip_spaces t else s
  | EmptyString => EmptyString
  end.

Fixpoint take_digits (s : string) : string :=
  match s with
  | String c t => if is_digit c then String c (take_digits t) else EmptyString
  | EmptyString => EmptyString
  end.

Fixpoint drop_prefix (p s : string) : option string :=
  match p, s with
  | EmptyString, _ => Some s
  | String a p', String b s' => if Ascii.eqb a b then drop_prefix p' s' else None
  | String _ _, EmptyString => None
  end.

(** The pattern [pf cap\s*(\d+)] matched at the start of [s]: group 1. *)
Definition pf_cap_match_here (s : string) : option string :=
  match drop_prefix "pf cap" s with
  | Some rest =>
      match take_digits (skip_spaces rest) with
      | EmptyString => None
      | d => Some d
      end
  | None => None
  end.

(** [re.search(r'pf cap\s*(\d+)', text)]: the leftmost match. *)
Fixpoint pf_cap_search (text : string) : option string :=
  match pf_cap_match_here text with
  | Some d => Some d
  | None =>
      match text with
      | EmptyString => None
      | String _ t => pf_cap_search t
      end
  end.

Definition set_leave_encashment (p : Policies) (b : bool) : Policies := {|
  pf_rate := pf_rate p; pf_cap := pf_cap p;
  esi_employee_rate := esi_employee_rate p; esi_threshold := esi_threshold p;
  pt_amount := pt_amount p; leave_encashment := b;
  encash_max_days := encash_max_days p
|}.

Definition set_pt_amount (p : Policies) (x : num) : Policies := {|
  pf_rate := pf_rate p; pf_cap := pf_cap p;
  esi_employee_rate := esi_employee_rate p; esi_threshold := esi_threshold p;
  pt_amount := x; leave_encashment := leave_encashment p;
  encash_max_days := encash_max_days p
|}.

Definition set_pf_cap (p : Policies) (x : num) : Policies := {|
  pf_rate := pf_rate p; pf_cap := x;
  esi_employee_rate := esi_employee_rate p; esi_threshold := esi_threshold p;
  pt_amount := pt_amount p; leave_encashment := leave_encashment p;
  encash_max_days := encash_max_days p
|}.

Definition update_policy (self : PayrollAgent) (policy_text : string) : PayrollAgent :=
  let text := lower policy_text in
  let p0 := policies self in
  let p1 :=
    if existsb (fun w => contains w text) ["encash"; "leave encashment"]
    then set_leave_encashment p0 true
    else p0 in
  let p2 := if contains "pt 250" text then set_pt_amount p1 (Fin 250) else p1 in
  let p3 :=
    match pf_cap_search text with
    | Some group1 => set_pf_cap p2 (num_of_Z (digits_value 0 group1))
    | None => p2
    end in
  set_policies self p3.

(** ** Workbook loader: [load_uploaded_excel] *)

Record Sheet : Type := {
  sheet_name : string;
  sheet_frame : DataFrame
}.

(** [pd.ExcelFile]: the sheets in workbook order. *)
Definition Workbook : Type := list Sheet.

Definition sheet_names (xls : Workbook) : list string := map sheet_name xls.

(** [pd.read_excel(xls, sheet_name=sheet)] *)
Definition read_excel (xls : Workbook) (sheet : string) : outcome DataFrame :=
  match List.find (fun s => String.eqb (sheet_name s) sheet) xls with
  | Some s => Return (sheet_frame s)
  | None => Raise (ValueError "Worksheet not found")
  end.

(** [pd.read_excel(xls, sheet_name=sheet, nrows=n)] *)
Definition read_excel_nrows (xls : Workbook) (sheet : string) (n : nat)
  : outcome DataFrame :=
  df ← read_excel xls sheet;
  Return {| columns := columns df; rows := firstn n (rows df) |}.

Definition salary_words : list string := ["basic"; "hra"; "gross"; "ctc"; "salary"].

(** The generator of line 46 over the labels still to visit: [.str.lower()]
    has lowered a text label and left NaN for any other, [col.lower()]
    then lowers the text again and raises on the NaN, and [any] stops at
    the first label that is one of the words. *)
Fixpoint any_salary_word (cols : list Label) : outcome bool :=
  match cols with
  | [] => Return false
  | LText s :: rest =>
      if existsb (String.eqb (lower (lower s))) salary_words then Return true
      else any_salary_word rest
  | LOther _ :: _ => Raise AttributeError
  end.

(** [any(col.lower() in [...] for col in temp_df.columns.str.lower())].
    The [.str] accessor refuses an index without text: the integer index
    of a sheet without columns, and labels none of which is text (on the
    first of these the generator raises the same error). *)
Definition has_salary_header (temp_df : DataFrame) : outcome bool :=
  match columns temp_df with
  | [] => Raise AttributeError
  | cols => any_salary_word cols
  end.

(** ['atten' in sheet.lower()] *)
Definition is_attendance_name (sheet : string) : bool :=
  contains "atten" (lower sheet).

(** The first loop, over the sheet names still to visit. *)
Fixpoint scan_salary (xls : Workbook) (names : list string)
    (salary_df : option DataFrame) : outcome (option DataFrame) :=
  match names with
  | [] => Return salary_df
  | sheet :: rest =>
      temp_df ← read_excel_nrows xls sheet 5;
      has_salary_header temp_df ≫= fun qualifies : bool =>
      if qualifies
      then df ← read_excel xls sheet;
           scan_salary xls rest (Some (dropna_all df))
      else scan_salary xls rest salary_df
  end.

(** The second loop. *)
Fixpoint scan_attendance (xls : Workbook) (names : list string)
    (attendance_df : option DataFrame) : outcome (option DataFrame) :=
  match names with
  | [] => Return attendance_df
  | sheet :: rest =>
      if is_attendance_name sheet
      then df ← read_excel xls sheet;
           scan_attendance xls rest (Some (dropna_all df))
      else scan_attendance xls rest attendance_df
  end.

Definition set_data (self : PayrollAgent) (d : gmap string DataFrame) : PayrollAgent :=
  {| payslip_dir := payslip_dir self; data := d; policies := policies self |}.

(** The body of the [try]; [disk path] is what [pd.ExcelFile(path)] gives.
    The two assignments to [self.data] come after every raising statement,
    so the body either raises with [self] untouched or returns the new
    agent. *)
Definition load_body (disk : string -> outcome Workbook) (self : PayrollAgent)
    (uploaded_excel_path : string) : outcome PayrollAgent :=
  xls ← disk uploaded_excel_path;
  salary_df ← scan_salary xls (sheet_names xls) None;
  attendance_df ← scan_attendance xls (sheet_names xls) None;
  match salary_df with
  | None => Raise (ValueError "No salary data found in uploaded file.")
  | Some salary =>
      let attendance := default empty_frame attendance_df in
      Return (set_data self
                (<["attendance" := attendance]> (<["salary" := salary]> (data self))))
  end.

Definition load_uploaded_excel (disk : string -> outcome Workbook)
    (self : PayrollAgent) (uploaded_excel_path : string)
  : outcome (PayrollAgent * bool) :=
  try_except
    (self' ← load_body disk self uploaded_excel_path; Return (self', true))
    (fun e => Return (self, false)).

(** [PayrollService.upload_excel] up to its guard on the loader's answer;
    what follows the guard is batch bookkeeping in the database. *)
Definition upload_excel (disk : string -> outcome Workbook) (agent : PayrollAgent)
    (file_path : string) : outcome PayrollAgent :=
  '(agent', success) ← load_uploaded_excel disk agent file_path;
  if negb success
  then Raise (ValueError "Failed to load Excel file. Check format.")
  else Return agent'.

(** ** Record resolution: lines 93-101 of [calculate_payroll] *)

Record Resolved : Type := {
  res_name : Cell;
  res_emp_id : Cell;
  res_designation : Cell;
  res_basic_da : num;
  res_hra : num;
  res_other_allow : num;
  res_gross_salary : num;
  res_days_in_month : Z;
  res_tds : num
}.

Definition kw_name : list string := ["name"].
Definition kw_emp_id : list string := ["code"; "emp id"; "e.code"; "id"].
Definition kw_designation : list string := ["designation"; "role"].
Definition kw_basic : list string := ["basic"; "basic + da"].
Definition kw_hra : list string := ["hra"].
Definition kw_other : list string := ["other allow"; "allowance"].
Definition kw_gross : list string := ["gross"; "monthly gross"; "ctc"].
Definition kw_days : list string := ["days in month"; "month days"].
Definition kw_tds : list string := ["tds"].

Definition resolve (emp_row : Row) : outcome Resolved :=
  let name := get emp_row kw_name (CNum (Fin 0)) in
  let emp_id := get emp_row kw_emp_id (CText "Unknown") in
  let designation := get emp_row kw_designation (CNum (Fin 0)) in
  basic_da ← py_float (get emp_row kw_basic (CNum (Fin 0)));
  hra ← py_float (get emp_row kw_hra (CNum (Fin 0)));
  other_allow ← py_float (get emp_row kw_other (CNum (Fin 0)));
  gross_salary ← py_float (get emp_row kw_gross
                    (CNum (num_add (num_add basic_da hra) other_allow)));
  days_in_month ← py_int (get emp_row kw_days (CNum (Fin 31)));
  tds ← py_float (get emp_row kw_tds (CNum (Fin 0)));
  Return {| res_name := name; res_emp_id := emp_id;
            res_designation := designation; res_basic_da := basic_da;
            res_hra := hra; res_other_allow := other_allow;
            res_gross_salary := gross_salary;
            res_days_in_month := days_in_month; res_tds := tds |}.

(** ** Attendance and deductions: lines 103-155 of [calculate_payroll] *)

Record Attendance : Type := {
  att_present_days : num;
  att_approved_paid_leaves : num;
  att_lop_days : num;
  att_remaining_leaves : num
}.

(** Lines 104-107. *)
Definition no_attendance (days_in_month : Z) : Attendance := {|
  att_present_days := num_of_Z days_in_month;
  att_approved_paid_leaves := Fin 0;
  att_lop_days := Fin 0;
  att_remaining_leaves := Fin 12
|}.

(** The dictionary [calculate_payroll] returns; [pdf_path] is the key the
    callers add after rendering. *)
Record PayrollResult : Type := {
  emp_id : string;
  name : string;
  designation : string;
  month : string;
  present_days : num;
  approved_paid_leaves : num;
  lop_days : num;
  payable_days : num;
  remaining_leaves : num;
  basic_da : num;
  hra : num;
  other_allow : num;
  gross : num;
  pf : num;
  esi : num;
  pt : num;
  tds : num;
  encashment : num;
  total_deductions : num;
  net_pay : num;
  pdf_path : option string
}.

(** Line 121; the days of the month are an [int]. *)
Definition prorated_gross (r : Resolved) (a : Attendance) : outcome num :=
  days ← float_of_int (res_days_in_month r);
  per_day ← num_div (res_gross_salary r) days;
  Return (num_mul per_day
            (num_add (att_present_days a) (att_approved_paid_leaves a))).

(** Lines 123-125. *)
Definition pf_due (p : Policies) (basic : num) : num :=
  py_min (num_mul basic (pf_rate p)) (pf_cap p).

Definition esi_due (p : Policies) (prorated : num) : num :=
  if num_leb prorated (esi_threshold p)
  then num_mul prorated (esi_employee_rate p)
  else Fin 0.

Definition pt_due (p : Policies) (prorated : num) : num :=
  if num_ltb (Fin 15000) prorated then pt_amount p else Fin 0.

(** Lines 128-130. *)
Definition encashment_due (p : Policies) (r : Resolved) (a : Attendance)
  : outcome num :=
  if leave_encashment p && num_ltb (Fin 0) (att_remaining_leaves a)
  then per_day ← num_div (num_add (res_basic_da r) (res_hra r)) (Fin 30);
       Return (num_mul per_day
                 (py_min (att_remaining_leaves a) (encash_max_days p)))
  else Return (Fin 0).

(** [repr(s)] of text: between single quotes, or between double quotes
    when the text has a single quote and no double one; the quote in use
    and the backslash escaped, tab, newline and return by their letters,
    every other character that is not printable by its code. *)
Definition double_quote : ascii := ascii_of_nat 34.

Definition is_printable (c : ascii) : bool :=
  let n := nat_of_ascii c in
  ((32 <=? n)%nat && (n <=? 126)%nat) || ((161 <=? n)%nat && negb (n =? 173)%nat).

Definition hex_digit (n : nat) : ascii :=
  nth n (list_ascii_of_string "0123456789abcdef") "0"%char.

Definition escape_char (quote c : ascii) : string :=
  let n := nat_of_ascii c in
  if Ascii.eqb c quote || Ascii.eqb c "\"%char then String "\" (String c "")
  else if (n =? 9)%nat then "\t"
  else if (n =? 10)%nat then "\n"
  else if (n =? 13)%nat then "\r"
  else if is_printable c then String c ""
  else String "\" (String "x" (String (hex_digit (n / 16))
                                 (String (hex_digit (n mod 16)) ""))).

Fixpoint escape_text (quote : ascii) (s : string) : string :=
  match s with
  | EmptyString => EmptyString
  | String c t => escape_char quote c ++ escape_text quote t
  end.

Definition repr_text (s : string) : string :=
  let quote :=
    if contains "'" s && negb (contains (String double_quote "") s)
    then double_quote else "'"%char in
  String quote (escape_text quote s ++ String quote "").

Section Payroll.

(** Python's text for a number, [str(x)] and [repr(x)]. *)
Variable str_num : num -> string.

(** [str(v)] *)
Definition py_str (v : Cell) : string :=
  match v with
  | CNum x => str_num x
  | CText s => s
  | CNone => "None"
  end.

(** [repr(v)] *)
Definition py_repr (v : Cell) : string :=
  match v with
  | CText s => repr_text s
  | _ => py_str v
  end.

(** [str(r.values)] for the object array of a row, as a table with a text
    column has it: the elements' [repr] between brackets, a blank between
    them. *)
Definition str_values (cells : list Cell) : string :=
  "[" ++ String.concat " " (map py_repr cells) ++ "]".

(** [ident.lower() in str(r.values).lower()] *)
Definition row_mentions (ident : string) (r : Row) : bool :=
  contains (lower ident) (lower (str_values (values r))).

(** [df[df.apply(lambda r: ident.lower() in ..., axis=1)]]: the frame of
    the rows the mask keeps. *)
Definition matching_rows (df : DataFrame) (ident : string) : DataFrame :=
  {| columns := columns df;
     rows := List.filter (fun cells => row_mentions ident (series df cells))
                         (rows df) |}.

(** Lines 109-118. *)
Definition read_attendance (self : PayrollAgent) (emp_id : Cell)
    (days_in_month : Z) : outcome Attendance :=
  attendance ← data_item self "attendance";
  if negb (df_empty attendance)
  then
    let att_match := matching_rows attendance (py_str emp_id) in
    if negb (df_empty att_match)
    then
      att ← iloc0 att_match;
      present ← get_3_args att ["present"; "total present"]
                  (CNum (num_of_Z days_in_month)) ≫= py_float;
      paid ← get_3_args att ["cl"; "el"; "paid leave"] (CNum (Fin 0))
               ≫= py_float;
      lop ← get_3_args att ["lop"] (CNum (Fin 0)) ≫= py_float;
      remaining ← get_3_args att ["remaining"; "balance"] (CNum (Fin 12))
                    ≫= py_float;
      Return {| att_present_days := present;
                att_approved_paid_leaves := paid;
                att_lop_days := lop;
                att_remaining_leaves := remaining |}
    else Return (no_attendance days_in_month)
  else Return (no_attendance days_in_month).

(** Lines 120 and 123-155, for the value [prorated] that line 121 has
    left in [prorated_gross]; [now] is [datetime.now().strftime("%B %Y")]. *)
Definition deductions_from (p : Policies) (r : Resolved) (a : Attendance)
    (now : string) (prorated : num) : outcome PayrollResult :=
  let payable := num_add (att_present_days a) (att_approved_paid_leaves a) in
  let pf := pf_due p (res_basic_da r) in
  let esi := esi_due p prorated in
  let pt := pt_due p prorated in
  let total := num_add (num_add (num_add pf esi) pt) (res_tds r) in
  encash ← encashment_due p r a;
  let net := num_add (num_sub prorated total) encash in
  Return {|
    emp_id := py_str (res_emp_id r);
    name := py_str (res_name r);
    designation := py_str (res_designation r);
    month := now;
    present_days := py_round 1 (att_present_days a);
    approved_paid_leaves := py_round 1 (att_approved_paid_leaves a);
    lop_days := py_round 1 (att_lop_days a);
    payable_days := py_round 1 payable;
    remaining_leaves := py_round 1 (att_remaining_leaves a);
    basic_da := py_round 2 (res_basic_da r);
    hra := py_round 2 (res_hra r);
    other_allow := py_round 2 (res_other_allow r);
    gross := py_round 2 prorated;
    pf := py_round 2 pf;
    esi := py_round 2 esi;
    pt := py_round 2 pt;
    tds := py_round 2 (res_tds r);
    encashment := py_round 2 encash;
    total_deductions := py_round 2 total;
    net_pay := py_round 2 net;
    pdf_path := None
  |}.

(** Lines 120-155. *)
Definition deductions (p : Policies) (r : Resolved) (a : Attendance)
    (now : string) : outcome PayrollResult :=
  prorated ← prorated_gross r a;
  deductions_from p r a now prorated.

Definition calculate_payroll (self : PayrollAgent) (now : string)
    (emp_row : Row) : outcome PayrollResult :=
  r ← resolve emp_row;
  a ← read_attendance self (res_emp_id r) (res_days_in_month r);
  deductions (policies self) r a now.

End Payroll.

(** ** Pay statement renderer: [generate_payslip_pdf] *)

(** A piece of a printed line: literal text, [{x}] or [{x:,}]. *)
Inductive fragment : Type :=
| Txt (s : string)
| Val (x : num)
| Grouped (x : num).

Definition Line : Type := list fragment.

Record Document : Type := {
  doc_title : string;
  doc_lines : list Line
}.

(** [os.path.join(a, b)] on POSIX. *)
Definition ends_with_slash (a : string) : bool :=
  match rev (list_ascii_of_string a) with
  | c :: _ => Ascii.eqb c "/"
  | [] => false
  end.

Definition os_path_join (a b : string) : string :=
  if String.prefix "/" b then b
  else if String.eqb a "" || ends_with_slash a then a ++ b
  else a ++ "/" ++ b.

(** Line 158. *)
Definition payslip_filename (d : PayrollResult) : string :=
  "payslip_" ++ emp_id d ++ "_" ++ replace_char " " "_" (month d) ++ ".pdf".

(** Lines 168-185. *)
Definition payslip_info (d : PayrollResult) : list Line := [
  [Txt "Name: "; Txt (name d)];
  [Txt "ID: "; Txt (emp_id d)];
  [Txt "Month: "; Txt (month d)];
  [Txt "Present: "; Val (present_days d); Txt " | Paid Leaves: ";
   Val (approved_paid_leaves d); Txt " | LOP: "; Val (lop_days d)];
  [Txt "Payable Days: "; Val (payable_days d)];
  [];
  [Txt "Basic + DA: Rs."; Grouped (basic_da d)];
  [Txt "HRA: Rs."; Grouped (hra d)];
  [Txt "Other Allowances: Rs."; Grouped (other_allow d)];
  [Txt "Gross (Prorated): Rs."; Grouped (gross d)];
  (if num_ltb (Fin 0) (encashment d)
   then [Txt "Leave Encashment: Rs."; Val (encashment d); Txt ","]
   else []);
  [];
  [Txt "PF: Rs."; Grouped (pf d); Txt " | ESI: Rs."; Grouped (esi d);
   Txt " | PT: Rs."; Grouped (pt d); Txt " | TDS: Rs."; Grouped (tds d)];
  [Txt "Total Deductions: Rs."; Grouped (total_deductions d)];
  [];
  [Txt "NET PAY: Rs."; Grouped (net_pay d)]
].

Definition nonempty_line (l : Line) : bool :=
  match l with
  | [] => false
  | _ :: _ => true
  end.

Definition payslip_document (d : PayrollResult) : Document := {|
  doc_title := "Salary Slip";
  doc_lines := List.filter nonempty_line (payslip_info d)
|}.

(** [payroll['pdf_path'] = pdf_path] *)
Definition with_pdf_path (d : PayrollResult) (path : string) : PayrollResult := {|
  emp_id := emp_id d; name := name d; designation := designation d;
  month := month d; present_days := present_days d;
  approved_paid_leaves := approved_paid_leaves d; lop_days := lop_days d;
  payable_days := payable_days d; remaining_leaves := remaining_leaves d;
  basic_da := basic_da d; hra := hra d; other_allow := other_allow d;
  gross := gross d; pf := pf d; esi := esi d; pt := pt d; tds := tds d;
  encashment := encashment d; total_deductions := total_deductions d;
  net_pay := net_pay d; pdf_path := Some path
|}.

Section Renderer.

(** What opening a path for writing raises, if anything: [pdf.output(path)]
    opens [path] and writes the document. The open fails, for one, when the
    directory part of the path does not exist. *)
Variable open_error : string -> option exn.

(** The files by path. A successful [pdf.output(path)] creates or
    truncates the file at [path]; a failed one leaves the files alone. *)
Definition generate_payslip_pdf (self : PayrollAgent) (d : PayrollResult)
    (files : gmap string Document) : outcome string * gmap string Document :=
  let filename := payslip_filename d in
  let path := os_path_join (payslip_dir self) filename in
  match open_error path with
  | Some e => (Raise e, files)
  | None => (Return path, <[path := payslip_document d]> files)
  end.

End Renderer.

(** ** Orchestration: [generate_all_payslips], [generate_single_payslip] *)

(** [enumerate(l, start)] *)
Fixpoint enumerate {A : Type} (start : nat) (l : list A) : list (nat * A) :=
  match l with
  | [] => []
  | x :: rest => (start, x) :: enumerate (S start) rest
  end.

(** [df.iterrows()]: the rows with their positions, the index of a table
    after [reset_index(drop=True)]. *)
Definition iterrows (df : DataFrame) : list (nat * Row) :=
  enumerate 0 (map (series df) (rows df)).

Section Orchestrator.

Variable str_num : num -> string.
Variable open_error : string -> option exn.

(** The month label [datetime.now().strftime("%B %Y")] gives while the row
    at a position is calculated: line 138 reads the clock once a row. *)
Variable clock : nat -> string.

(** The loop of [generate_all_payslips] over the rows still to visit. A
    raise leaves the files written so far in place. *)
Fixpoint payslips_loop (self : PayrollAgent) (todo : list (nat * Row))
    (results : list PayrollResult) (files : gmap string Document)
  : outcome (list PayrollResult) * gmap string Document :=
  match todo with
  | [] => (Return results, files)
  | (i, row) :: rest =>
      match calculate_payroll str_num self (clock i) row with
      | Raise e => (Raise e, files)
      | Return payroll =>
          match generate_payslip_pdf open_error self payroll files with
          | (Raise e, files') => (Raise e, files')
          | (Return path, files') =>
              payslips_loop self rest
                (results ++ [with_pdf_path payroll path]) files'
          end
      end
  end.

Definition generate_all_payslips (self : PayrollAgent)
    (files : gmap string Document)
  : outcome (list PayrollResult) * gmap string Document :=
  match data_item self "salary" with
  | Raise e => (Raise e, files)
  | Return salary => payslips_loop self (iterrows salary) [] files
  end.

(** One calculation, one reading [now] of the clock. *)
Definition generate_single_payslip (self : PayrollAgent) (now : string)
    (emp_id : string) (files : gmap string Document)
  : outcome PayrollResult * gmap string Document :=
  match data_item self "salary" with
  | Raise e => (Raise e, files)
  | Return salary =>
      let row := matching_rows str_num salary emp_id in
      if df_empty row
      then (Raise (ValueError "Employee not found"), files)
      else
        match iloc0 row ≫= calculate_payroll str_num self now with
        | Raise e => (Raise e, files)
        | Return payroll =>
            match generate_payslip_pdf open_error self payroll files with
            | (Raise e, files') => (Raise e, files')
            | (Return path, files') =>
                (Return (with_pdf_path payroll path), files')
            end
        end
  end.

End Orchestrator.

(** ** Direct policy update: [set_policies_direct] *)

(** A value of the dictionary passed in: a number or a boolean. Python's
    [bool] is a number (0 or 1) where one is expected, and a number is
    true when it is not zero. *)
Inductive PolicyValue : Type :=
| PVNum (x : num)
| PVBool (b : bool).

Definition pv_num (v : PolicyValue) : num :=
  match v with
  | PVNum x => x
  | PVBool b => if b then Fin 1 else Fin 0
  end.

Definition pv_truth (v : PolicyValue) : bool :=
  match v with
  | PVNum x => negb (is_zero x)
  | PVBool b => b
  end.

Definition set_pf_rate (p : Policies) (x : num) : Policies := {|
  pf_rate := x; pf_cap := pf_cap p;
  esi_employee_rate := esi_employee_rate p; esi_threshold := esi_threshold p;
  pt_amount := pt_amount p; leave_encashment := leave_encashment p;
  encash_max_days := encash_max_days p
|}.

Definition set_esi_employee_rate (p : Policies) (x : num) : Policies := {|
  pf_rate := pf_rate p; pf_cap := pf_cap p;
  esi_employee_rate := x; esi_threshold := esi_threshold p;
  pt_amount := pt_amount p; leave_encashment := leave_encashment p;
  encash_max_days := encash_max_days p
|}.

Definition set_esi_threshold (p : Policies) (x : num) : Policies := {|
  pf_rate := pf_rate p; pf_cap := pf_cap p;
  esi_employee_rate := esi_employee_rate p; esi_threshold := x;
  pt_amount := pt_amount p; leave_encashment := leave_encashment p;
  encash_max_days := encash_max_days p
|}.

Definition set_encash_max_days (p : Policies) (x : num) : Policies := {|
  pf_rate := pf_rate p; pf_cap := pf_cap p;
  esi_employee_rate := esi_employee_rate p; esi_threshold := esi_threshold p;
  pt_amount := pt_amount p; leave_encashment := leave_encashment p;
  encash_max_days := x
|}.

(** [if key in self.policies: self.policies[key] = value] *)
Definition set_policy_key (p : Policies) (key : string) (value : PolicyValue)
  : Policies :=
  if String.eqb key "pf_rate" then set_pf_rate p (pv_num value)
  else if String.eqb key "pf_cap" then set_pf_cap p (pv_num value)
  else if String.eqb key "esi_employee_rate"
  then set_esi_employee_rate p (pv_num value)
  else if String.eqb key "esi_threshold" then set_esi_threshold p (pv_num value)
  else if String.eqb key "pt_amount" then set_pt_amount p (pv_num value)
  else if String.eqb key "leave_encashment"
  then set_leave_encashment p (pv_truth value)
  else if String.eqb key "encash_max_days"
  then set_encash_max_days p (pv_num value)
  else p.

(** The dictionary is given by its items, in their order. *)
Definition set_policies_direct (self : PayrollAgent)
    (items : list (string * PolicyValue)) : PayrollAgent :=
  set_policies self
    (fold_left (fun p kv => set_policy_key p (fst kv) (snd kv)) items
               (policies self)).

(** ** The service's policy hand-over: [_apply_policy_to_agent] *)

(** A row of the [policies] table with its structured columns filled. *)
Record PolicyEntity : Type := {
  ent_pf_rate : num;
  ent_pf_cap : num;
  ent_esi_employee_rate : num;
  ent_esi_threshold : num;
  ent_pt_amount : num;
  ent_leave_encashment : bool;
  ent_encash_max_days : Z;
  ent_policy_text : option string
}.

Definition policy_items (policy : PolicyEntity) : list (string * PolicyValue) := [
  ("pf_rate", PVNum (ent_pf_rate policy));
  ("pf_cap", PVNum (ent_pf_cap policy));
  ("esi_employee_rate", PVNum (ent_esi_employee_rate policy));
  ("esi_threshold", PVNum (ent_esi_threshold policy));
  ("pt_amount", PVNum (ent_pt_amount policy));
  ("leave_encashment", PVBool (ent_leave_encashment policy));
  ("encash_max_days", PVNum (num_of_Z (ent_encash_max_days policy)))
].

Definition apply_policy_to_agent (agent : PayrollAgent) (policy : PolicyEntity)
  : PayrollAgent :=
  let agent1 := set_policies_direct agent (policy_items policy) in
  match ent_policy_text policy with
  | Some text => if String.eqb text "" then agent1 else update_policy agent1 text
  | None => agent1
  end.

(** ** Employee list: [get_employee_list], [get_salary_data] *)

(** [self.data.get('salary', pd.DataFrame())] *)
Definition get_salary_data (self : PayrollAgent) : DataFrame :=
  default empty_frame (data self !! "salary").

(** Truth value of a cell. *)
Definition truthy (v : Cell) : bool :=
  match v with
  | CNum x => negb (is_zero x)
  | CText s => negb (String.eqb s "")
  | CNone => false
  end.

(** [v or alt] *)
Definition py_or (v alt : Cell) : Cell := if truthy v then v else alt.

Record EmployeeRecord : Type := {
  e_emp_id : string;
  e_name : string;
  e_designation : string;
  e_department : string;
  e_email : string;
  e_basic_da : num;
  e_hra : num;
  e_other_allowances : num;
  e_gross_salary : num
}.

Section EmployeeList.

Variable str_num : num -> string.

(** The dictionary appended for one row, lines 229-239. *)
Definition employee_record (row : Row) : outcome EmployeeRecord :=
  let emp_id := py_str str_num (get row kw_emp_id (CText "Unknown")) in
  let name := py_str str_num (get row kw_name (CText "")) in
  let designation := py_str str_num (get row kw_designation (CText "")) in
  let department := py_str str_num (get row ["department"; "dept"] (CText "")) in
  let email := py_str str_num (get row ["email"; "mail"] (CText "")) in
  basic_da ← py_float (py_or (get row kw_basic (CNum (Fin 0))) (CNum (Fin 0)));
  hra ← py_float (py_or (get row kw_hra (CNum (Fin 0))) (CNum (Fin 0)));
  other ← py_float (py_or (get row kw_other (CNum (Fin 0))) (CNum (Fin 0)));
  gross ← py_float (py_or (get row kw_gross (CNum (Fin 0))) (CNum (Fin 0)));
  Return {| e_emp_id := emp_id; e_name := name; e_designation := designation;
            e_department := department; e_email := email;
            e_basic_da := basic_da; e_hra := hra;
            e_other_allowances := other; e_gross_salary := gross |}.

Fixpoint employees_loop (todo : list Row) (employees : list EmployeeRecord)
  : outcome (list EmployeeRecord) :=
  match todo with
  | [] => Return employees
  | row :: rest =>
      e ← employee_record row;
      employees_loop rest (employees ++ [e])
  end.

Definition get_employee_list (self : PayrollAgent) : outcome (list EmployeeRecord) :=
  match data self !! "salary" with
  | None => Return []
  | Some salary =>
      if df_empty salary then Return []
      else employees_loop (map (series salary) (rows salary)) []
  end.

End EmployeeList.

(** ** The service's agent calls in [generate_all_payroll], lines 144-155

    Between the batch checks and the storing of the payslips: the active
    policy, if there is one, is applied; the workbook is loaded again when
    the batch has a path and a file is there, the loader's answer unused;
    then all payslips are generated. *)

Section ServiceCalls.

Variable str_num : num -> string.
Variable open_error : string -> option exn.
Variable clock : nat -> string.


End ServiceCalls.


(** * Properties *)

(** ** Text lemmas *)

Lemma append_cons (c : ascii) (a b : string) :
  String c a +:+ b = String c (a +:+ b).
Proof. reflexivity. Qed.

Lemma append_nil (b : string) : "" +:+ b = b.
Proof. reflexivity. Qed.

Lemma prefix_app (n h : string) :
  String.prefix n h = true <-> exists b, h = n +:+ b.
Proof.
  revert h; induction n as [|c n IH]; intros h; simpl.
  - split; [intros _; exists h; reflexivity | destruct h; reflexivity].
  - destruct h as [|d h]; simpl.
    + split; [discriminate | intros [b Hb]; discriminate].
    + destruct (ascii_dec c d) as [->|Hne].
      * rewrite IH. split; intros [b Hb]; exists b;
          rewrite append_cons in *; congruence.
      * split; [discriminate | intros [b Hb]; rewrite append_cons in Hb; congruence].
Qed.

(** [contains] is the substring test. *)
Lemma contains_spec (n h : string) :
  contains n h = true <-> exists a b, h = a +:+ n +:+ b.
Proof.
  induction h as [|d h IH]; cbn [contains].
  - rewrite orb_false_r, prefix_app. split.
    + intros [b Hb]. exists "", b. exact Hb.
    + intros (a & b & Hab). destruct a; [exists b; exact Hab|discriminate].
  - rewrite orb_true_iff, prefix_app, IH. split.
    + intros [[b Hb] | (a & b & Hab)].
      * exists "", b. exact Hb.
      * exists (String d a), b. rewrite append_cons. congruence.
    + intros (a & b & Hab). destruct a as [|c a].
      * left. exists b. exact Hab.
      * right. exists a, b. rewrite append_cons in Hab. congruence.
Qed.

Lemma lower_app (a b : string) : lower (a +:+ b) = lower a +:+ lower b.
Proof.
  induction a as [|c a IH]; [reflexivity|].
  rewrite append_cons. simpl. now rewrite IH.
Qed.

(** ** Column resolver *)

Definition no_match (col_keywords : list string) (r : Row) : Prop :=
  Forall (fun cv => label_matches col_keywords (fst cv) = false) r.

Lemma label_matches_spec (col_keywords : list string) (col : string) :
  label_matches col_keywords col = true <->
  exists k a b, In k col_keywords /\ lower col = a +:+ lower k +:+ b.
Proof.
  unfold label_matches. rewrite existsb_exists. split.
  - intros (k & Hk & Hc). apply contains_spec in Hc as (a & b & Hab). eauto.
  - intros (k & a & b & Hk & Hab). exists k. split; [exact Hk|].
    apply contains_spec. eauto.
Qed.

Lemma get_no_match (r : Row) (col_keywords : list string) (default : Cell) :
  no_match col_keywords r -> get r col_keywords default = default.
Proof.
  induction 1 as [|[col v] r Hc _ IH]; simpl in *; [reflexivity|].
  now rewrite Hc.
Qed.

Lemma get_first (pre post : Row) (col : string) (v : Cell)
    (col_keywords : list string) (default : Cell) :
  no_match col_keywords pre ->
  label_matches col_keywords col = true ->
  get (pre ++ (col, v) :: post) col_keywords default = v.
Proof.
  induction 1 as [|[c w] pre Hc _ IH]; simpl in *; intros Hm.
  - now rewrite Hm.
  - rewrite Hc. exact (IH Hm).
Qed.

Lemma get_cases (r : Row) (col_keywords : list string) (default : Cell) :
  (no_match col_keywords r /\ get r col_keywords default = default) \/
  (exists pre col v post,
      r = pre ++ (col, v) :: post /\ no_match col_keywords pre /\
      label_matches col_keywords col = true /\
      get r col_keywords default = v).
Proof.
  induction r as [|[col v] r IH]; simpl.
  - left. split; [constructor | reflexivity].
  - destruct (label_matches col_keywords col) eqn:Hc.
    + right. exists [], col, v, r. repeat split; [constructor | exact Hc].
    + destruct IH as [[Hn Hg] | (pre & c & w & post & -> & Hn & Hm & Hg)].
      * left. split; [constructor; [exact Hc | exact Hn] | exact Hg].
      * right. exists ((col, v) :: pre), c, w, post.
        repeat split; [constructor; [exact Hc | exact Hn] | exact Hm | exact Hg].
Qed.

(** C7. The column resolver visits the labels of the row in their order and
    answers with the cell of the first label that has some keyword as a
    substring, letter case ignored; when no label has one it answers with
    the default. With the columns Emp Code, Basic+DA, HRA and the keyword
    basic it answers with the Basic+DA cell, whatever the letter case of
    label and keyword. *)
Theorem get_first_matching_column :
  (forall (r : Row) (col_keywords : list string) (default : Cell),
      (no_match col_keywords r /\ get r col_keywords default = default) \/
      (exists pre col v post,
          r = pre ++ (col, v) :: post /\ no_match col_keywords pre /\
          label_matches col_keywords col = true /\
          get r col_keywords default = v)) /\
  (forall (col_keywords : list string) (col : string),
      label_matches col_keywords col = true <->
      exists k a b, In k col_keywords /\ lower col = a +:+ lower k +:+ b) /\
  (forall c1 c2 c3 default : Cell,
      get [("Emp Code", c1); ("Basic+DA", c2); ("HRA", c3)] ["basic"] default = c2 /\
      get [("EMP CODE", c1); ("BASIC+DA", c2); ("hra", c3)] ["Basic"] default = c2 /\
      get [("Emp Code", c1); ("Basic+DA", c2); ("HRA", c3)] ["bonus"] default
        = default).
Proof.
  split; [exact get_cases | split; [exact label_matches_spec |]].
  intros c1 c2 c3 default. repeat split.
Qed.

(** ** Deduction calculator *)

(** The record and attendance of the reference case. *)
Definition reference_record (nm ident dg : Cell) : Resolved := {|
  res_name := nm; res_emp_id := ident; res_designation := dg;
  res_basic_da := Fin 20000; res_hra := Fin 8000; res_other_allow := Fin 0;
  res_gross_salary := Fin 28000; res_days_in_month := 30; res_tds := Fin 0
|}.

Definition reference_attendance (lop remaining : num) : Attendance := {|
  att_present_days := Fin 30; att_approved_paid_leaves := Fin 0;
  att_lop_days := lop; att_remaining_leaves := remaining
|}.

Definition reference_row : Row := [
  ("Emp Code", CText "E001"); ("Name", CText "Asha");
  ("Basic", CNum (Fin 20000)); ("HRA", CNum (Fin 8000));
  ("Other Allowances", CNum (Fin 0)); ("Gross", CNum (Fin 28000));
  ("Days in Month", CNum (Fin 30)); ("TDS", CNum (Fin 0))
].

(** An agent after a load of a workbook that has no attendance sheet. *)
Definition agent_without_attendance (salary : DataFrame) : PayrollAgent :=
  set_data (init "payslips")
    (<["attendance" := empty_frame]> (<["salary" := salary]> ∅)).

(** C1. Under the default policy, a record with basic+DA 20000, HRA 8000,
    other allowances 0, gross 28000, 30 days in the month and TDS 0, with
    30 present days and no paid leave, gets PF 1800 (12% of 20000 is 2400,
    capped), ESI 0, PT 200, total deductions 2000, prorated gross 28000 and
    net pay 26000; [calculate_payroll] computes the same from a row that
    holds these values. *)
Theorem deductions_reference_case (str_num : num -> string)
    (nm ident dg : Cell) (lop remaining : num) (now : string)
    (salary : DataFrame) :
  (exists d,
      deductions str_num default_policies (reference_record nm ident dg)
        (reference_attendance lop remaining) now = Return d /\
      pf d = Fin 1800 /\ esi d = Fin 0 /\ pt d = Fin 200 /\
      total_deductions d = Fin 2000 /\ gross d = Fin 28000 /\
      net_pay d = Fin 26000) /\
  (exists d,
      calculate_payroll str_num (agent_without_attendance salary) now
        reference_row = Return d /\
      pf d = Fin 1800 /\ esi d = Fin 0 /\ pt d = Fin 200 /\
      total_deductions d = Fin 2000 /\ gross d = Fin 28000 /\
      net_pay d = Fin 26000).
Proof.
  split; eexists; (split; [reflexivity|]); repeat split.
Qed.

Lemma num_eqb_leb (a b : num) : num_eqb a b = true -> num_leb a b = true.
Proof.
  destruct a as [x|s|], b as [y|t|]; simpl; try discriminate.
  - intros H. apply Qeq_bool_iff in H. apply Qle_bool_iff.
    rewrite H. apply Qle_refl.
  - destruct s, t; simpl; congruence.
Qed.

Lemma num_eqb_not_ltb (a b : num) : num_eqb a b = true -> num_ltb b a = false.
Proof.
  destruct a as [x|s|], b as [y|t|]; simpl; try discriminate.
  - intros H. apply Qeq_bool_iff in H.
    assert (Hle : Qle_bool x y = true)
      by (apply Qle_bool_iff; rewrite H; apply Qle_refl).
    now rewrite Hle.
  - destruct s, t; simpl; congruence.
Qed.

Lemma encashment_due_returns (p : Policies) (r : Resolved) (a : Attendance) :
  exists e, encashment_due p r a = Return e.
Proof.
  unfold encashment_due.
  destruct (leave_encashment p && num_ltb (Fin 0) (att_remaining_leaves a));
    eexists; reflexivity.
Qed.

(** Once line 121 has left a value, the remaining lines return. *)
Lemma deductions_from_returns (str_num : num -> string) (p : Policies)
    (r : Resolved) (a : Attendance) (now : string) (prorated : num) :
  exists d, deductions_from str_num p r a now prorated = Return d /\
            gross d = py_round 2 prorated /\
            pf d = py_round 2 (pf_due p (res_basic_da r)) /\
            esi d = py_round 2 (esi_due p prorated) /\
            pt d = py_round 2 (pt_due p prorated).
Proof.
  destruct (encashment_due_returns p r a) as [e He].
  unfold deductions_from. rewrite He. cbn [mbind outcome_bind].
  eexists. split; [reflexivity|]. repeat split.
Qed.


(** C6. Whatever value line 121 has left as the prorated gross, the lines
    after it return a result. When that value equals the ESI threshold,
    ESI is charged on it ([<=] includes the bound); when it equals 15000,
    no professional tax is charged ([>] excludes the bound), under every
    policy. The result carries both amounts rounded to two places. *)
Theorem esi_and_pt_at_the_bounds (str_num : num -> string) (p : Policies)
    (r : Resolved) (a : Attendance) (now : string) (prorated : num) :
  exists d, deductions_from str_num p r a now prorated = Return d /\
    (num_eqb prorated (esi_threshold p) = true ->
     esi_due p prorated = num_mul prorated (esi_employee_rate p) /\
     esi d = py_round 2 (num_mul prorated (esi_employee_rate p))) /\
    (num_eqb prorated (Fin 15000) = true ->
     pt_due p prorated = Fin 0 /\ pt d = Fin 0).
Proof.
  destruct (deductions_from_returns str_num p r a now prorated)
    as (d & Hd & _ & _ & Hesi & Hpt).
  exists d. split; [exact Hd|]. split.
  - intros Heq. rewrite Hesi. unfold esi_due.
    now rewrite (num_eqb_leb _ _ Heq).
  - intros Heq. rewrite Hpt. unfold pt_due.
    now rewrite (num_eqb_not_ltb _ _ Heq).
Qed.

(** A policy whose ESI threshold is 15000 and a record, with the value
    15000 left by line 121: both bounds are met at once. *)
Definition policy_threshold_15000 : Policies := {|
  pf_rate := Fin (12 # 100); pf_cap := Fin 1800;
  esi_employee_rate := Fin (75 # 10000); esi_threshold := Fin 15000;
  pt_amount := Fin 200; leave_encashment := false; encash_max_days := Fin 10
|}.

Definition record_gross_15000 : Resolved := {|
  res_name := CText "Asha"; res_emp_id := CText "E001";
  res_designation := CText "Clerk";
  res_basic_da := Fin 10000; res_hra := Fin 5000; res_other_allow := Fin 0;
  res_gross_salary := Fin 15000; res_days_in_month := 30; res_tds := Fin 0
|}.

Lemma esi_and_pt_at_the_bounds_witness :
  exists d,
    deductions_from (fun _ => "") policy_threshold_15000 record_gross_15000
      (no_attendance 30) "March 2026" (Fin 15000) = Return d /\
    esi d = Fin (225 # 2) /\ pt d = Fin 0.
Proof.
  destruct (esi_and_pt_at_the_bounds (fun _ => "") policy_threshold_15000
              record_gross_15000 (no_attendance 30) "March 2026" (Fin 15000))
    as (d & Hd & Hesi & Hpt).
  exists d. split; [exact Hd|]. split.
  - destruct (Hesi eq_refl) as [_ ->]. reflexivity.
  - exact (proj2 (Hpt eq_refl)).
Defined.

(** ** Attendance reconciliation *)

(** Once some attendance row mentions the employee, the first read of that
    row is the three-argument call of [get], and the calculation stops
    there. *)
Lemma calculate_payroll_matched_row (str_num : num -> string)
    (self : PayrollAgent) (now : string) (emp_row : Row) (r : Resolved)
    (attendance : DataFrame) :
  resolve emp_row = Return r ->
  data self !! "attendance" = Some attendance ->
  df_empty (matching_rows str_num attendance (py_str str_num (res_emp_id r)))
    = false ->
  calculate_payroll str_num self now emp_row =
  Raise (TypeError "get() takes from 1 to 2 positional arguments but 3 were given").
Proof.
  intros Hr Hd Hm. unfold calculate_payroll. rewrite Hr.
  cbn [mbind outcome_bind]. unfold read_attendance, data_item. rewrite Hd.
  cbn [mbind outcome_bind].
  assert (Hne : df_empty attendance = false).
  { unfold df_empty, matching_rows in *. cbn [columns rows] in Hm.
    destruct (columns attendance); [discriminate|].
    destruct (rows attendance); [discriminate | reflexivity]. }
  rewrite Hne, Hm. cbn [negb].
  unfold iloc0. unfold df_empty in Hm.
  destruct (columns (matching_rows str_num attendance _)); [discriminate|].
  destruct (rows (matching_rows str_num attendance _)); [discriminate|].
  reflexivity.
Qed.

Definition attendance_sheet : DataFrame := {|
  columns := text_labels ["Emp Code"; "Present"; "CL"; "LOP"; "Balance"];
  rows := [[CText "E001"; CNum (Fin 28); CNum (Fin 1); CNum (Fin 1);
            CNum (Fin 9)]]
|}.

Definition agent_with_attendance (salary : DataFrame) : PayrollAgent :=
  set_data (init "payslips")
    (<["attendance" := attendance_sheet]> (<["salary" := salary]> ∅)).

(** C2. The deduction calculation does raise: with an attendance table
    that has a row for the employee, [calculate_payroll] stops with a
    [TypeError] at its first read of that row. *)
Theorem calculate_payroll_raises_on_attendance_match
    (str_num : num -> string) (now : string) (salary : DataFrame) :
  calculate_payroll str_num (agent_with_attendance salary) now reference_row =
  Raise (TypeError "get() takes from 1 to 2 positional arguments but 3 were given").
Proof.
  eapply calculate_payroll_matched_row; reflexivity.
Qed.

(** ** Numeric fields *)

(** The cell of the first column whose label matches, if there is one. *)
Definition first_cell (r : Row) (col_keywords : list string) : option Cell :=
  snd <$> List.find (fun cv => label_matches col_keywords (fst cv)) r.

Lemma get_first_cell (r : Row) (col_keywords : list string) (d : Cell) :
  get r col_keywords d = default d (first_cell r col_keywords).
Proof.
  unfold first_cell. induction r as [|[col v] r IH]; simpl; [reflexivity|].
  destruct (label_matches col_keywords col); [reflexivity | exact IH].
Qed.

(** The field is absent ([None]: no label matches) or its first matching
    cell holds the finite number [q] ([Some q]). *)
Definition field_holds (r : Row) (col_keywords : list string) (x : option Q)
  : Prop :=
  first_cell r col_keywords = (fun q => CNum (Fin q)) <$> x.

(** What a numeric field resolves to: its default when no label matches,
    and otherwise what the conversion [conv] ([float] or [int]) makes of
    the first matching cell. *)
Definition resolved_field {A : Type} (conv : Cell -> outcome A) (r : Row)
    (col_keywords : list string) (dflt v : A) : Prop :=
  match first_cell r col_keywords with
  | None => v = dflt
  | Some c => conv c = Return v
  end.

(** The conversion of the first matching cell raises. *)
Definition field_raises {A : Type} (conv : Cell -> outcome A) (r : Row)
    (col_keywords : list string) : Prop :=
  exists c, first_cell r col_keywords = Some c /\ raises (conv c).

Lemma float_field_spec (r : Row) (kws : list string) (d v : num) :
  py_float (get r kws (CNum d)) = Return v <-> resolved_field py_float r kws d v.
Proof.
  rewrite get_first_cell. unfold resolved_field.
  destruct (first_cell r kws) as [c|]; [reflexivity|].
  cbn. split; [intros H; injection H as <-; reflexivity | intros ->; reflexivity].
Qed.

Lemma int_field_spec (r : Row) (v : Z) :
  py_int (get r kw_days (CNum (Fin 31))) = Return v <->
  resolved_field py_int r kw_days 31 v.
Proof.
  rewrite get_first_cell. unfold resolved_field.
  destruct (first_cell r kw_days) as [c|]; [reflexivity|].
  cbn. split; [intros H; injection H as <-; reflexivity | intros ->; reflexivity].
Qed.

Lemma float_field_raises (r : Row) (kws : list string) (d : num) :
  raises (py_float (get r kws (CNum d))) <-> field_raises py_float r kws.
Proof.
  rewrite get_first_cell. unfold field_raises.
  destruct (first_cell r kws) as [c|]; cbn.
  - split; [intros H; exists c; split; [reflexivity | exact H]|].
    intros (c' & Hc & H). injection Hc as <-. exact H.
  - split; [intros [e He]; discriminate He | intros (c & Hc & _); discriminate Hc].
Qed.

Lemma int_field_raises (r : Row) :
  raises (py_int (get r kw_days (CNum (Fin 31)))) <-> field_raises py_int r kw_days.
Proof.
  rewrite get_first_cell. unfold field_raises.
  destruct (first_cell r kw_days) as [c|]; cbn.
  - split; [intros H; exists c; split; [reflexivity | exact H]|].
    intros (c' & Hc & H). injection Hc as <-. exact H.
  - split; [intros [e He]; discriminate He | intros (c & Hc & _); discriminate Hc].
Qed.

Lemma raises_bind {A B : Type} (m : outcome A) (k : A -> outcome B) :
  raises (m ≫= k) <-> raises m \/ exists a, m = Return a /\ raises (k a).
Proof.
  destruct m as [a|e]; cbn.
  - split; [intros H; right; exists a; split; [reflexivity | exact H]|].
    intros [[e He] | (a' & Ha & H)]; [discriminate He|].
    injection Ha as <-. exact H.
  - split; [intros _; left; exists e; reflexivity | intros _; exists e; reflexivity].
Qed.

(** The resolution returns exactly the record of the resolved fields. *)
Lemma resolve_returns_iff (r : Row) (res : Resolved) :
  resolve r = Return res <->
  res_name res = default (CNum (Fin 0)) (first_cell r kw_name) /\
  res_emp_id res = default (CText "Unknown") (first_cell r kw_emp_id) /\
  res_designation res = default (CNum (Fin 0)) (first_cell r kw_designation) /\
  resolved_field py_float r kw_basic (Fin 0) (res_basic_da res) /\
  resolved_field py_float r kw_hra (Fin 0) (res_hra res) /\
  resolved_field py_float r kw_other (Fin 0) (res_other_allow res) /\
  resolved_field py_float r kw_gross
    (num_add (num_add (res_basic_da res) (res_hra res)) (res_other_allow res))
    (res_gross_salary res) /\
  resolved_field py_int r kw_days 31 (res_days_in_month res) /\
  resolved_field py_float r kw_tds (Fin 0) (res_tds res).
Proof.
  rewrite <- !float_field_spec, <- int_field_spec, <- !get_first_cell.
  unfold resolve. split.
  - destruct (py_float (get r kw_basic _)) as [b|]; [|discriminate].
    cbn [mbind outcome_bind].
    destruct (py_float (get r kw_hra _)) as [h|]; [|discriminate].
    cbn [mbind outcome_bind].
    destruct (py_float (get r kw_other _)) as [o|]; [|discriminate].
    cbn [mbind outcome_bind].
    destruct (py_float (get r kw_gross _)) as [g|] eqn:Hg; [|discriminate].
    cbn [mbind outcome_bind].
    destruct (py_int (get r kw_days _)) as [z|]; [|discriminate].
    cbn [mbind outcome_bind].
    destruct (py_float (get r kw_tds _)) as [t|]; [|discriminate].
    cbn [mbind outcome_bind]. intros H. injection H as <-.
    cbn [res_name res_emp_id res_designation res_basic_da res_hra
         res_other_allow res_gross_salary res_days_in_month res_tds].
    repeat split; exact Hg.
  - intros (Hn & Hi & Hdg & Hb & Hh & Ho & Hg & Hd & Ht).
    rewrite Hb. cbn [mbind outcome_bind]. rewrite Hh. cbn [mbind outcome_bind].
    rewrite Ho. cbn [mbind outcome_bind]. rewrite Hg. cbn [mbind outcome_bind].
    rewrite Hd. cbn [mbind outcome_bind]. rewrite Ht. cbn [mbind outcome_bind].
    rewrite <- Hn, <- Hi, <- Hdg. destruct res; reflexivity.
Qed.

(** The resolution raises exactly when the conversion of some numeric
    field's first matching cell does. *)
Lemma resolve_raises_iff (r : Row) :
  raises (resolve r) <->
  field_raises py_float r kw_basic \/ field_raises py_float r kw_hra \/
  field_raises py_float r kw_other \/ field_raises py_float r kw_gross \/
  field_raises py_int r kw_days \/ field_raises py_float r kw_tds.
Proof.
  rewrite <- (float_field_raises r kw_basic (Fin 0)).
  rewrite <- (float_field_raises r kw_hra (Fin 0)).
  rewrite <- (float_field_raises r kw_other (Fin 0)).
  rewrite <- int_field_raises.
  rewrite <- (float_field_raises r kw_tds (Fin 0)).
  unfold resolve.
  destruct (py_float (get r kw_basic _)) as [b|e1].
  2: { split; [intros _; left; exists e1; reflexivity |
               intros _; exists e1; reflexivity]. }
  cbn [mbind outcome_bind].
  destruct (py_float (get r kw_hra _)) as [h|e2].
  2: { split; [intros _; right; left; exists e2; reflexivity |
               intros _; exists e2; reflexivity]. }
  cbn [mbind outcome_bind].
  destruct (py_float (get r kw_other _)) as [o|e3].
  2: { split; [intros _; do 2 right; left; exists e3; reflexivity |
               intros _; exists e3; reflexivity]. }
  cbn [mbind outcome_bind].
  rewrite <- (float_field_raises r kw_gross (num_add (num_add b h) o)).
  destruct (py_float (get r kw_gross _)) as [g|e4].
  2: { split; [intros _; do 3 right; left; exists e4; reflexivity |
               intros _; exists e4; reflexivity]. }
  cbn [mbind outcome_bind].
  destruct (py_int (get r kw_days _)) as [z|e5].
  2: { split; [intros _; do 4 right; left; exists e5; reflexivity |
               intros _; exists e5; reflexivity]. }
  cbn [mbind outcome_bind].
  destruct (py_float (get r kw_tds _)) as [t|e6].
  2: { split; [intros _; do 5 right; exists e6; reflexivity |
               intros _; exists e6; reflexivity]. }
  cbn [mbind outcome_bind].
  split; [intros [e He]; discriminate He|].
  intros [[e He] | [[e He] | [[e He] | [[e He] | [[e He] | [e He]]]]]];
    discriminate He.
Qed.

(** The keyword lists of the numeric fields that [float] converts. *)
Definition float_fields : list (list string) :=
  [kw_basic; kw_hra; kw_other; kw_gross; kw_tds].

(** C3, as the code has it. The resolution returns a record exactly when
    every numeric field is resolved: to its default (0, the sum
    basic+HRA+other for the gross, 31 for the days of the month) when no
    label matches, and otherwise to what [float] ([int] for the days)
    makes of the first matching cell, the default unused. So a number in
    the cell is the value, NaN included (cut to its integer part for the
    days). The resolution raises exactly when the conversion of some
    field's first matching cell raises: [None], text that [float] or
    [int] refuses, NaN or an infinity as the days of the month. *)
Theorem numeric_fields_default_or_number (r : Row) :
  (forall res,
     resolve r = Return res <->
     res_name res = default (CNum (Fin 0)) (first_cell r kw_name) /\
     res_emp_id res = default (CText "Unknown") (first_cell r kw_emp_id) /\
     res_designation res = default (CNum (Fin 0)) (first_cell r kw_designation) /\
     resolved_field py_float r kw_basic (Fin 0) (res_basic_da res) /\
     resolved_field py_float r kw_hra (Fin 0) (res_hra res) /\
     resolved_field py_float r kw_other (Fin 0) (res_other_allow res) /\
     resolved_field py_float r kw_gross
       (num_add (num_add (res_basic_da res) (res_hra res)) (res_other_allow res))
       (res_gross_salary res) /\
     resolved_field py_int r kw_days 31 (res_days_in_month res) /\
     resolved_field py_float r kw_tds (Fin 0) (res_tds res)) /\
  (raises (resolve r) <->
   field_raises py_float r kw_basic \/ field_raises py_float r kw_hra \/
   field_raises py_float r kw_other \/ field_raises py_float r kw_gross \/
   field_raises py_int r kw_days \/ field_raises py_float r kw_tds) /\
  (forall x q, py_float (CNum x) = Return x /\
               py_int (CNum (Fin q)) = Return (truncate q)) /\
  (forall kws, In kws float_fields ->
     (first_cell r kws = Some CNone -> raises (resolve r)) /\
     (forall s, first_cell r kws = Some (CText s) -> float_of_text s = None ->
                raises (resolve r))) /\
  (forall c, first_cell r kw_days = Some c ->
     c = CNone \/ c = CNum NaN \/ (exists neg, c = CNum (Inf neg)) \/
     (exists s, c = CText s /\ int_of_text s = None) ->
     raises (resolve r)).
Proof.
  split; [exact (resolve_returns_iff r)|].
  split; [exact (resolve_raises_iff r)|].
  split; [intros x q; split; reflexivity|].
  split.
  - intros kws Hin.
    assert (Hf : field_raises py_float r kws -> raises (resolve r)).
    { intros Hr. apply resolve_raises_iff.
      destruct Hin as [<- | [<- | [<- | [<- | [<- | []]]]]]; tauto. }
    split.
    + intros Hc. apply Hf. exists CNone. split; [exact Hc|].
      eexists; reflexivity.
    + intros s Hc Hs. apply Hf. exists (CText s). split; [exact Hc|].
      cbn. rewrite Hs. eexists; reflexivity.
  - intros c Hc Hbad. apply resolve_raises_iff. do 4 right. left.
    exists c. split; [exact Hc|].
    destruct Hbad as [-> | [-> | [[neg ->] | (s & -> & Hs)]]]; cbn;
      try rewrite Hs; eexists; reflexivity.
Qed.

Definition row_without_gross : Row := [
  ("Emp Code", CText "E001"); ("Basic", CNum (Fin 20000));
  ("HRA", CNum (Fin 8000)); ("Month Days", CNum (Fin (61 # 2)))
].

Lemma numeric_fields_default_or_number_witness :
  resolve row_without_gross =
  Return {| res_name := CNum (Fin 0); res_emp_id := CText "E001";
            res_designation := CNum (Fin 0);
            res_basic_da := Fin 20000; res_hra := Fin 8000;
            res_other_allow := Fin 0; res_gross_salary := Fin 28000;
            res_days_in_month := 30; res_tds := Fin 0 |}.
Proof.
  apply (proj1 (numeric_fields_default_or_number row_without_gross)).
  repeat split.
Defined.

(** C3 as stated fails: an empty Basic cell (NaN) is resolved to NaN, not
    to the default 0; a Basic cell with the text N/A and an empty Days in
    Month cell each make the resolution raise. *)
Lemma resolve_non_numeric_cell_not_default :
  (exists res,
      resolve [("Emp Code", CText "E001"); ("Basic", CNum NaN)] = Return res /\
      res_basic_da res = NaN /\ res_basic_da res <> Fin 0) /\
  resolve [("Emp Code", CText "E001"); ("Basic", CText "N/A")] =
    Raise (ValueError "could not convert string to float") /\
  resolve [("Emp Code", CText "E001"); ("Days in Month", CNum NaN)] =
    Raise (ValueError "cannot convert float NaN to integer").
Proof.
  split; [|repeat split].
  eexists. split; [reflexivity|]. split; [reflexivity | discriminate].
Qed.

(** ** Workbook loader *)

Lemma read_excel_known (xls : Workbook) (sheet : string) :
  In sheet (sheet_names xls) ->
  exists s, In s xls /\ read_excel xls sheet = Return (sheet_frame s).
Proof.
  unfold read_excel. induction xls as [|t xls IH]; simpl; [intros []|].
  intros Hin. destruct (String.eqb (sheet_name t) sheet) eqn:Heq.
  - exists t. split; [left; reflexivity | reflexivity].
  - destruct Hin as [Hn | Hin].
    + apply String.eqb_neq in Heq. contradiction.
    + destruct (IH Hin) as (s & Hs & Hr). exists s. split; [right; exact Hs | exact Hr].
Qed.

(** Sheet names are unique in a workbook, so reading by name gives the
    sheet itself. *)
Lemma read_excel_sheet (xls : Workbook) (s : Sheet) :
  List.NoDup (sheet_names xls) -> In s xls ->
  read_excel xls (sheet_name s) = Return (sheet_frame s).
Proof.
  unfold read_excel. induction xls as [|t xls IH]; simpl; [intros _ []|].
  intros Hnd Hin. inversion Hnd as [|? ? Hnotin Hnd']; subst.
  destruct Hin as [-> | Hin].
  - now rewrite String.eqb_refl.
  - destruct (String.eqb (sheet_name t) (sheet_name s)) eqn:Heq.
    + apply String.eqb_eq in Heq. exfalso. apply Hnotin. rewrite Heq.
      apply in_map. exact Hin.
    + exact (IH Hnd' Hin).
Qed.

(** The sheet is taken as the salary table: its header probe answers
    [True]. *)
Definition qualifies (s : Sheet) : bool :=
  match has_salary_header (sheet_frame s) with
  | Return true => true
  | _ => false
  end.

(** The header probe of the sheet answers, [True] or [False]: the sheet has
    columns, and no label that is not text comes before its first salary
    word. *)
Definition probe_returns (s : Sheet) : Prop :=
  exists b, has_salary_header (sheet_frame s) = Return b.

Definition pick_salary (acc : option DataFrame) (s : Sheet) : option DataFrame :=
  if qualifies s then Some (dropna_all (sheet_frame s)) else acc.

Definition pick_attendance (acc : option DataFrame) (s : Sheet)
  : option DataFrame :=
  if is_attendance_name (sheet_name s) then Some (dropna_all (sheet_frame s))
  else acc.

Lemma probe_first_rows (df : DataFrame) (n : nat) :
  has_salary_header {| columns := columns df; rows := firstn n (rows df) |} =
  has_salary_header df.
Proof. reflexivity. Qed.

Lemma scan_salary_fold (xls : Workbook) (l : list Sheet) (acc : option DataFrame) :
  (forall s, In s l -> read_excel xls (sheet_name s) = Return (sheet_frame s)) ->
  Forall probe_returns l ->
  scan_salary xls (map sheet_name l) acc = Return (fold_left pick_salary l acc).
Proof.
  intros Hread Hall. revert acc Hread.
  induction Hall as [|s l [b Hb] _ IH]; intros acc Hread; simpl; [reflexivity|].
  unfold read_excel_nrows. rewrite (Hread s (or_introl eq_refl)).
  cbn [mbind outcome_bind]. rewrite probe_first_rows, Hb.
  cbn [mbind outcome_bind]. unfold pick_salary at 2, qualifies. rewrite Hb.
  destruct b; cbn [mbind outcome_bind];
    apply IH; intros t Ht; apply Hread; right; exact Ht.
Qed.

(** A sheet whose header probe raises stops the first loop, if nothing
    stopped it before. *)
Lemma scan_salary_raises (xls : Workbook) (l : list Sheet)
    (acc : option DataFrame) (t : Sheet) :
  (forall s, In s l -> read_excel xls (sheet_name s) = Return (sheet_frame s)) ->
  In t l -> raises (has_salary_header (sheet_frame t)) ->
  raises (scan_salary xls (map sheet_name l) acc).
Proof.
  intros Hread Hin Ht. revert acc.
  induction l as [|s l IH]; intros acc; [destruct Hin|]. simpl.
  unfold read_excel_nrows. rewrite (Hread s (or_introl eq_refl)).
  cbn [mbind outcome_bind]. rewrite probe_first_rows.
  destruct (has_salary_header (sheet_frame s)) as [b|e] eqn:Hs;
    cbn [mbind outcome_bind]; [|exists e; reflexivity].
  assert (Hin' : In t l).
  { destruct Hin as [-> | Hin]; [|exact Hin].
    destruct Ht as [e He]. congruence. }
  assert (Hread' : forall u, In u l ->
            read_excel xls (sheet_name u) = Return (sheet_frame u))
    by (intros u Hu; apply Hread; right; exact Hu).
  destruct b; cbn [mbind outcome_bind]; apply IH; assumption.
Qed.

Lemma scan_attendance_fold (xls : Workbook) (l : list Sheet)
    (acc : option DataFrame) :
  (forall s, In s l -> read_excel xls (sheet_name s) = Return (sheet_frame s)) ->
  scan_attendance xls (map sheet_name l) acc =
  Return (fold_left pick_attendance l acc).
Proof.
  revert acc. induction l as [|s l IH]; intros acc Hread; simpl; [reflexivity|].
  unfold pick_attendance at 2.
  destruct (is_attendance_name (sheet_name s)).
  - rewrite (Hread s (or_introl eq_refl)). cbn [mbind outcome_bind].
    apply IH; intros t Ht; apply Hread; right; exact Ht.
  - apply IH; intros t Ht; apply Hread; right; exact Ht.
Qed.

(** The second loop reads sheets by their own names and cannot raise. *)
Lemma scan_attendance_returns (xls : Workbook) (names : list string)
    (acc : option DataFrame) :
  (forall n, In n names -> In n (sheet_names xls)) ->
  exists att, scan_attendance xls names acc = Return att.
Proof.
  revert acc. induction names as [|n names IH]; intros acc Hsub; simpl;
    [eexists; reflexivity|].
  destruct (is_attendance_name n).
  - destruct (read_excel_known xls n (Hsub n (or_introl eq_refl)))
      as (s & _ & Hr).
    rewrite Hr. cbn [mbind outcome_bind].
    apply IH. intros m Hm. apply Hsub. right. exact Hm.
  - apply IH. intros m Hm. apply Hsub. right. exact Hm.
Qed.

(** Without a qualifying sheet the first loop keeps what it had, unless a
    header probe raises; it keeps it when every probe answers [False]. *)
Lemma scan_salary_no_qualifier (xls : Workbook) (names : list string)
    (acc : option DataFrame) :
  Forall (fun t => has_salary_header (sheet_frame t) <> Return true) xls ->
  (forall n, In n names -> In n (sheet_names xls)) ->
  (scan_salary xls names acc = Return acc \/
   raises (scan_salary xls names acc)) /\
  (Forall (fun t => has_salary_header (sheet_frame t) = Return false) xls ->
   scan_salary xls names acc = Return acc).
Proof.
  intros Hnone. rewrite Forall_forall in Hnone.
  induction names as [|n names IH]; intros Hsub; simpl.
  { split; [left; reflexivity | intros _; reflexivity]. }
  destruct (read_excel_known xls n (Hsub n (or_introl eq_refl)))
    as (s & Hin & Hr).
  unfold read_excel_nrows. rewrite Hr. cbn [mbind outcome_bind].
  rewrite probe_first_rows.
  assert (Hsub' : forall m, In m names -> In m (sheet_names xls))
    by (intros m Hm; apply Hsub; right; exact Hm).
  apply list_elem_of_In in Hin.
  split.
  - destruct (has_salary_header (sheet_frame s)) as [[|]|e] eqn:Hs;
      cbn [mbind outcome_bind].
    + exfalso. exact (Hnone s Hin Hs).
    + exact (proj1 (IH Hsub')).
    + right. exists e. reflexivity.
  - intros Hfalse. rewrite Forall_forall in Hfalse.
    rewrite (Hfalse s Hin). cbn [mbind outcome_bind].
    apply (proj2 (IH Hsub')). apply Forall_forall. exact Hfalse.
Qed.

(** The last sheet that is picked decides the fold. *)
Lemma fold_pick_last (pick : option DataFrame -> Sheet -> option DataFrame)
    (test : Sheet -> bool) (pre post : list Sheet) (s : Sheet)
    (acc : option DataFrame) :
  (forall a t, pick a t = if test t then Some (dropna_all (sheet_frame t)) else a) ->
  test s = true -> Forall (fun t => test t = false) post ->
  fold_left pick (pre ++ s :: post) acc = Some (dropna_all (sheet_frame s)).
Proof.
  intros Hpick Hs Hpost. rewrite fold_left_app. simpl.
  rewrite (Hpick _ s), Hs. clear Hs.
  induction Hpost as [|t post Ht _ IH]; simpl; [reflexivity|].
  now rewrite (Hpick _ t), Ht.
Qed.

Lemma fold_pick_none (pick : option DataFrame -> Sheet -> option DataFrame)
    (test : Sheet -> bool) (l : list Sheet) (acc : option DataFrame) :
  (forall a t, pick a t = if test t then Some (dropna_all (sheet_frame t)) else a) ->
  Forall (fun t => test t = false) l -> fold_left pick l acc = acc.
Proof.
  intros Hpick Hl. induction Hl as [|t l Ht _ IH]; simpl; [reflexivity|].
  now rewrite (Hpick _ t), Ht.
Qed.

(** The state a successful load leaves behind. *)
Lemma load_success (disk : string -> outcome Workbook) (self : PayrollAgent)
    (path : string) (xls : Workbook) (salary : DataFrame)
    (att : option DataFrame) :
  disk path = Return xls ->
  scan_salary xls (sheet_names xls) None = Return (Some salary) ->
  scan_attendance xls (sheet_names xls) None = Return att ->
  exists self',
    load_uploaded_excel disk self path = Return (self', true) /\
    data self' !! "salary" = Some salary /\
    data self' !! "attendance" = Some (default empty_frame att) /\
    policies self' = policies self /\ payslip_dir self' = payslip_dir self.
Proof.
  intros Hd Hs Ha. unfold load_uploaded_excel, load_body.
  rewrite Hd. cbn [mbind outcome_bind]. rewrite Hs. cbn [mbind outcome_bind].
  rewrite Ha. cbn [mbind outcome_bind try_except].
  eexists. split; [reflexivity|]. cbn [data set_data policies payslip_dir].
  split; [|split; [|split; reflexivity]].
  - rewrite lookup_insert_ne by discriminate. apply lookup_insert_eq.
  - apply lookup_insert_eq.
Qed.

(** A load whose body raises answers [False] and keeps the agent. *)
Lemma load_body_raises (disk : string -> outcome Workbook) (self : PayrollAgent)
    (path : string) :
  raises (load_body disk self path) ->
  load_uploaded_excel disk self path = Return (self, false).
Proof.
  intros [e He]. unfold load_uploaded_excel. now rewrite He.
Qed.


(** C4, as the code has it. In a workbook in which the header probe of
    every sheet answers, the table of the last sheet with a salary header,
    in workbook order, is loaded as the salary table; when several sheet
    names contain atten, the last such sheet is loaded as the attendance
    table, and an empty table when no name does. A workbook with a sheet
    whose header probe raises (a sheet without columns, a label that is not
    text before any salary word) is not loaded: the loader answers [False]
    and the agent stays as it was. *)
Theorem load_last_sheet_wins (disk : string -> outcome Workbook)
    (self : PayrollAgent) (path : string) (xls : Workbook) :
  disk path = Return xls ->
  List.NoDup (sheet_names xls) ->
  (Forall probe_returns xls ->
   forall pre s post,
     xls = pre ++ s :: post ->
     has_salary_header (sheet_frame s) = Return true ->
     Forall (fun t => has_salary_header (sheet_frame t) = Return false) post ->
     exists self',
       load_uploaded_excel disk self path = Return (self', true) /\
       data self' !! "salary" = Some (dropna_all (sheet_frame s)) /\
       (forall pre' post' a,
           xls = pre' ++ a :: post' ->
           is_attendance_name (sheet_name a) = true ->
           Forall (fun t => is_attendance_name (sheet_name t) = false) post' ->
           data self' !! "attendance" = Some (dropna_all (sheet_frame a))) /\
       (Forall (fun t => is_attendance_name (sheet_name t) = false) xls ->
        data self' !! "attendance" = Some empty_frame)) /\
  (forall t, In t xls -> raises (has_salary_header (sheet_frame t)) ->
     load_uploaded_excel disk self path = Return (self, false)).
Proof.
  intros Hd Hnd.
  assert (Hread : forall t, In t xls ->
            read_excel xls (sheet_name t) = Return (sheet_frame t))
    by (intros t; apply read_excel_sheet; exact Hnd).
  split.
  - intros Hall pre s post Hx Hs Hpost.
    destruct (load_success disk self path xls (dropna_all (sheet_frame s))
                (fold_left pick_attendance xls None) Hd)
      as (self' & Hload & Hsal & Hatt & _).
    + unfold sheet_names. rewrite (scan_salary_fold xls xls None Hread Hall).
      f_equal. rewrite Hx.
      apply (fold_pick_last pick_salary qualifies); [reflexivity | |].
      * unfold qualifies. now rewrite Hs.
      * eapply Forall_impl; [exact Hpost|].
        intros t Ht. unfold qualifies. now rewrite Ht.
    + unfold sheet_names. apply (scan_attendance_fold xls xls None Hread).
    + exists self'. split; [exact Hload|]. split; [exact Hsal|]. split.
      * intros pre' post' a Hx' Ha Hpost'. rewrite Hatt. rewrite Hx' at 1.
        rewrite (fold_pick_last pick_attendance
                   (fun t => is_attendance_name (sheet_name t)) pre' post' a None);
          [reflexivity | reflexivity | exact Ha | exact Hpost'].
      * intros Hnone. rewrite Hatt.
        rewrite (fold_pick_none pick_attendance
                   (fun t => is_attendance_name (sheet_name t)) xls None);
          [reflexivity | reflexivity | exact Hnone].
  - intros t Hin Ht. apply load_body_raises.
    destruct (scan_salary_raises xls xls None t Hread Hin Ht) as [e He].
    exists e. unfold load_body. rewrite Hd. cbn [mbind outcome_bind].
    unfold sheet_names. now rewrite He.
Qed.

Definition sample_workbook : Workbook := [
  {| sheet_name := "Attendance Jan";
     sheet_frame := {| columns := text_labels ["Emp Code"; "Present"];
                       rows := [[CText "E001"; CNum (Fin 20)]] |} |};
  {| sheet_name := "Salary";
     sheet_frame := {| columns := text_labels ["Emp Code"; "Basic"; "HRA"];
                       rows := [[CText "E001"; CNum (Fin 100); CNum (Fin 40)]] |} |};
  {| sheet_name := "ATTENDANCE Feb";
     sheet_frame := {| columns := text_labels ["Emp Code"; "Present"];
                       rows := [[CText "E001"; CNum (Fin 28)];
                                [CNum NaN; CNum NaN]] |} |};
  {| sheet_name := "SalaryMain";
     sheet_frame := {| columns := text_labels ["Emp Code"; "GROSS"];
                       rows := [[CNum NaN; CNum NaN];
                                [CText "E001"; CNum (Fin 28000)]] |} |};
  {| sheet_name := "Notes";
     sheet_frame := {| columns := text_labels ["Remark"];
                       rows := [[CText "draft"]] |} |}
].

(** Two sheets with a salary header, and a third sheet that is empty. *)
Definition workbook_with_empty_sheet : Workbook := [
  {| sheet_name := "Pay Jan";
     sheet_frame := {| columns := text_labels ["Emp Code"; "Basic"];
                       rows := [[CText "E001"; CNum (Fin 20000)]] |} |};
  {| sheet_name := "Pay Feb";
     sheet_frame := {| columns := text_labels ["Emp Code"; "Gross"];
                       rows := [[CText "E001"; CNum (Fin 28000)]] |} |};
  {| sheet_name := "Sheet3"; sheet_frame := empty_frame |}
].

Lemma load_last_sheet_wins_witness :
  (exists self',
    load_uploaded_excel (fun _ => Return sample_workbook) (init "payslips")
      "upload.xlsx" = Return (self', true) /\
    data self' !! "salary" =
      Some {| columns := text_labels ["Emp Code"; "GROSS"];
              rows := [[CText "E001"; CNum (Fin 28000)]] |} /\
    data self' !! "attendance" =
      Some {| columns := text_labels ["Emp Code"; "Present"];
              rows := [[CText "E001"; CNum (Fin 28)]] |}) /\
  load_uploaded_excel (fun _ => Return workbook_with_empty_sheet)
    (init "payslips") "upload.xlsx" = Return (init "payslips", false).
Proof.
  split.
  - destruct (load_last_sheet_wins (fun _ => Return sample_workbook)
                (init "payslips") "upload.xlsx" sample_workbook) as [Hlast _].
    + reflexivity.
    + repeat constructor; simpl; intuition discriminate.
    + destruct (Hlast
                  ltac:(repeat constructor; eexists; reflexivity)
                  (firstn 3 sample_workbook)
                  {| sheet_name := "SalaryMain";
                     sheet_frame :=
                       {| columns := text_labels ["Emp Code"; "GROSS"];
                          rows := [[CNum NaN; CNum NaN];
                                   [CText "E001"; CNum (Fin 28000)]] |} |}
                  (skipn 4 sample_workbook) eq_refl eq_refl
                  ltac:(repeat constructor))
        as (self' & Hload & Hsal & Hatt & _).
      exists self'. split; [exact Hload|]. split; [exact Hsal|].
      apply (Hatt (firstn 2 sample_workbook) (skipn 3 sample_workbook)
               {| sheet_name := "ATTENDANCE Feb";
                  sheet_frame :=
                    {| columns := text_labels ["Emp Code"; "Present"];
                       rows := [[CText "E001"; CNum (Fin 28)];
                                [CNum NaN; CNum NaN]] |} |}).
      * reflexivity.
      * reflexivity.
      * repeat constructor.
  - destruct (load_last_sheet_wins (fun _ => Return workbook_with_empty_sheet)
                (init "payslips") "upload.xlsx" workbook_with_empty_sheet)
      as [_ Hfail].
    + reflexivity.
    + repeat constructor; simpl; intuition discriminate.
    + apply (Hfail {| sheet_name := "Sheet3"; sheet_frame := empty_frame |}).
      * simpl. tauto.
      * exists AttributeError. reflexivity.
Defined.

(** C4 as stated fails: two sheets of the workbook have a salary header,
    yet neither is selected, because the probe of the empty third sheet
    raises: the loader answers [False] and no salary table is loaded. *)
Lemma load_stops_at_empty_sheet :
  Forall (fun s => has_salary_header (sheet_frame s) = Return true)
         (firstn 2 workbook_with_empty_sheet) /\
  exists self',
    load_uploaded_excel (fun _ => Return workbook_with_empty_sheet)
      (init "payslips") "upload.xlsx" = Return (self', false) /\
    data self' !! "salary" = None.
Proof.
  split; [repeat constructor|].
  eexists. split; reflexivity.
Qed.

(** C5, as the code has it. When no sheet has a salary header, the loader
    answers [False] with the agent unchanged, and the guard of
    [PayrollService.upload_excel] raises a [ValueError] with its own
    message. What the loader has caught is the [ValueError] of line 56
    when the header probe of every sheet answered [False]. *)
Theorem load_without_salary_sheet (disk : string -> outcome Workbook)
    (self : PayrollAgent) (path : string) (xls : Workbook) :
  disk path = Return xls ->
  Forall (fun t => has_salary_header (sheet_frame t) <> Return true) xls ->
  load_uploaded_excel disk self path = Return (self, false) /\
  upload_excel disk self path =
    Raise (ValueError "Failed to load Excel file. Check format.") /\
  (Forall (fun t => has_salary_header (sheet_frame t) = Return false) xls ->
   load_body disk self path =
     Raise (ValueError "No salary data found in uploaded file.")).
Proof.
  intros Hd Hnone.
  destruct (scan_salary_no_qualifier xls (sheet_names xls) None Hnone
              (fun n H => H)) as [Hscan Hfalse].
  destruct (scan_attendance_returns xls (sheet_names xls) None (fun n H => H))
    as [att Hatt].
  assert (Hload : load_uploaded_excel disk self path = Return (self, false)).
  { apply load_body_raises. unfold load_body. rewrite Hd.
    cbn [mbind outcome_bind].
    destruct Hscan as [-> | [e ->]]; [|exists e; reflexivity].
    cbn [mbind outcome_bind]. rewrite Hatt. eexists; reflexivity. }
  split; [exact Hload|]. split.
  - unfold upload_excel. rewrite Hload. reflexivity.
  - intros Hall. unfold load_body. rewrite Hd. cbn [mbind outcome_bind].
    rewrite (Hfalse Hall). cbn [mbind outcome_bind]. rewrite Hatt. reflexivity.
Qed.

Definition workbook_without_salary : Workbook := [
  {| sheet_name := "Attendance";
     sheet_frame := {| columns := text_labels ["Emp Code"; "Present"];
                       rows := [[CText "E001"; CNum (Fin 28)]] |} |};
  {| sheet_name := "Pay";
     sheet_frame := {| columns := text_labels ["Emp Code"; "Basic+DA";
                                                "Gross Salary"];
                       rows := [[CText "E001"; CNum (Fin 20000);
                                 CNum (Fin 28000)]] |} |}
].

Lemma load_without_salary_sheet_witness :
  load_uploaded_excel (fun _ => Return workbook_without_salary)
    (init "payslips") "upload.xlsx" = Return (init "payslips", false) /\
  upload_excel (fun _ => Return workbook_without_salary) (init "payslips")
    "upload.xlsx" = Raise (ValueError "Failed to load Excel file. Check format.") /\
  load_body (fun _ => Return workbook_without_salary) (init "payslips")
    "upload.xlsx" = Raise (ValueError "No salary data found in uploaded file.").
Proof.
  destruct (load_without_salary_sheet (fun _ => Return workbook_without_salary)
              (init "payslips") "upload.xlsx" workbook_without_salary)
    as (Hload & Hup & Hbody).
  - reflexivity.
  - repeat constructor; discriminate.
  - split; [exact Hload|]. split; [exact Hup|].
    apply Hbody. repeat constructor.
Defined.

(** C5 as stated fails: for a workbook without a salary sheet the loader
    does not fail, it returns [False]; and what [upload_excel] raises is
    not the no-salary-data error the loader swallowed. *)
Lemma load_error_is_swallowed :
  ~ raises (load_uploaded_excel (fun _ => Return workbook_without_salary)
              (init "payslips") "upload.xlsx") /\
  upload_excel (fun _ => Return workbook_without_salary) (init "payslips")
    "upload.xlsx" <> Raise (ValueError "No salary data found in uploaded file.").
Proof.
  split.
  - intros [e He]. discriminate He.
  - discriminate.
Qed.

(** ** Policy notes *)

Lemma append_assoc (a b c : string) : (a +:+ b) +:+ c = a +:+ b +:+ c.
Proof.
  induction a as [|x a IH]; [reflexivity|].
  rewrite !append_cons. now rewrite IH.
Qed.

Lemma drop_prefix_none (p s : string) :
  String.prefix p s = false -> drop_prefix p s = None.
Proof.
  revert s. induction p as [|c p IH]; intros s;
    destruct s as [|d s]; simpl; try discriminate; [reflexivity|].
  destruct (ascii_dec c d) as [->|Hne].
  - rewrite Ascii.eqb_refl. apply IH.
  - intros _. apply Ascii.eqb_neq in Hne. now rewrite Hne.
Qed.

Lemma length_app (a b : string) :
  String.length (a +:+ b) = (String.length a + String.length b)%nat.
Proof.
  induction a as [|c a IH]; [reflexivity|].
  rewrite append_cons. simpl. now rewrite IH.
Qed.

Definition starts_with_digit (s : string) : bool :=
  match s with
  | String c _ => is_digit c
  | EmptyString => false
  end.

Lemma take_digits_no_digit (s : string) :
  starts_with_digit s = false -> take_digits s = "".
Proof. destruct s as [|c s]; simpl; [reflexivity | now intros ->]. Qed.

Lemma drop_prefix_app (p s : string) : drop_prefix p (p +:+ s) = Some s.
Proof.
  induction p as [|c p IH]; [destruct s; reflexivity|].
  rewrite append_cons. simpl. now rewrite Ascii.eqb_refl.
Qed.

Lemma pf_cap_search_here (text d : string) :
  pf_cap_match_here text = Some d -> pf_cap_search text = Some d.
Proof. intros H. destruct text; cbn [pf_cap_search]; now rewrite H. Qed.

Lemma pf_cap_match_2000 (s : string) :
  starts_with_digit s = false ->
  pf_cap_match_here ("pf cap 2000" +:+ s) = Some "2000".
Proof.
  intros Hs. unfold pf_cap_match_here.
  change ("pf cap 2000" +:+ s) with ("pf cap" +:+ " 2000" +:+ s).
  rewrite drop_prefix_app.
  replace (take_digits (skip_spaces (" 2000" +:+ s)))
    with ("2000" +:+ take_digits s) by reflexivity.
  now rewrite (take_digits_no_digit s Hs).
Qed.

(** No match of the pattern starts inside [pre] when [rest] follows it. *)
Fixpoint no_match_within (pre rest : string) : bool :=
  match pre with
  | EmptyString => true
  | String _ p =>
      match pf_cap_match_here (pre +:+ rest) with
      | Some _ => false
      | None => no_match_within p rest
      end
  end.

(** The search passes over a stretch in which no match starts. *)
Lemma pf_cap_search_after (pre rest : string) :
  no_match_within pre rest = true ->
  pf_cap_search (pre +:+ rest) = pf_cap_search rest.
Proof.
  induction pre as [|c pre IH]; [reflexivity|].
  cbn [no_match_within].
  destruct (pf_cap_match_here (String c pre +:+ rest)) eqn:Hm; [discriminate|].
  intros Hn. rewrite append_cons in Hm |- *. cbn [pf_cap_search].
  rewrite Hm. exact (IH Hn).
Qed.

(** C8, as the code has it. Notes that, once lowered, hold [pf cap 2000]
    at a place where no match of the pattern [pf cap\s*(\d+)] starts
    before it and no further digit follows it, and that mention neither
    [encash] nor [pt 250], set the provident fund cap to 2000 and leave
    every other policy field, the loaded tables and the output directory
    as they were. *)
Theorem update_policy_pf_cap_2000 (self : PayrollAgent) (notes pre suf : string) :
  lower notes = pre +:+ "pf cap 2000" +:+ suf ->
  no_match_within pre ("pf cap 2000" +:+ suf) = true ->
  starts_with_digit suf = false ->
  contains "encash" (lower notes) = false ->
  contains "pt 250" (lower notes) = false ->
  let self' := update_policy self notes in
  pf_cap (policies self') = Fin 2000 /\
  pf_rate (policies self') = pf_rate (policies self) /\
  esi_employee_rate (policies self') = esi_employee_rate (policies self) /\
  esi_threshold (policies self') = esi_threshold (policies self) /\
  pt_amount (policies self') = pt_amount (policies self) /\
  leave_encashment (policies self') = leave_encashment (policies self) /\
  encash_max_days (policies self') = encash_max_days (policies self) /\
  data self' = data self /\ payslip_dir self' = payslip_dir self.
Proof.
  intros Hlow Hfirst Hsuf Hen Hpt self'. subst self'. unfold update_policy.
  assert (Hle : contains "leave encashment" (lower notes) = false).
  { destruct (contains "leave encashment" _) eqn:Hc; [|reflexivity].
    apply contains_spec in Hc as (a & b & Hab).
    rewrite <- Hen. symmetry. rewrite Hab.
    change "leave encashment" with ("leave " +:+ "encash" +:+ "ment").
    rewrite !append_assoc, <- (append_assoc a "leave ").
    apply contains_spec. eexists _, _. reflexivity. }
  cbn [existsb]. rewrite Hen, Hle, Hpt. cbn [orb].
  rewrite Hlow, (pf_cap_search_after _ _ Hfirst).
  rewrite (pf_cap_search_here _ _ (pf_cap_match_2000 suf Hsuf)).
  repeat split.
Qed.

Lemma update_policy_pf_cap_2000_witness :
  pf_cap (policies (update_policy (init "payslips")
                      "PF cap is now PF CAP 2000.")) = Fin 2000 /\
  pt_amount (policies (update_policy (init "payslips")
                         "PF cap is now PF CAP 2000.")) = Fin 200.
Proof.
  destruct (update_policy_pf_cap_2000 (init "payslips")
              "PF cap is now PF CAP 2000." "pf cap is now " "."
              eq_refl eq_refl eq_refl eq_refl eq_refl)
    as (Hcap & _ & _ & _ & Hpt & _).
  split; [exact Hcap | exact Hpt].
Defined.

(** C8 as stated fails: notes can contain [pf cap 2000] and set another
    cap, because the digits run on or an earlier [pf cap] is found first,
    and they can change another field, because they also mention
    [encash]. *)
Lemma notes_containing_pf_cap_2000 :
  (contains "pf cap 2000" "pf cap 20000" = true /\
   pf_cap (policies (update_policy (init "payslips") "pf cap 20000"))
     = Fin 20000) /\
  (contains "pf cap 2000" "pf cap 1500 (was pf cap 2000)" = true /\
   pf_cap (policies (update_policy (init "payslips")
                       "pf cap 1500 (was pf cap 2000)")) = Fin 1500) /\
  (contains "pf cap 2000" "encash unused leave; pf cap 2000" = true /\
   leave_encashment (policies (init "payslips")) = false /\
   leave_encashment (policies (update_policy (init "payslips")
                                 "encash unused leave; pf cap 2000")) = true).
Proof. repeat split. Qed.

(** ** Pay statement renderer *)


Definition sample_result (net : num) : PayrollResult := {|
  emp_id := "E001"; name := "Asha"; designation := "Clerk";
  month := "March 2026";
  present_days := Fin 30; approved_paid_leaves := Fin 0; lop_days := Fin 0;
  payable_days := Fin 30; remaining_leaves := Fin 12;
  basic_da := Fin 20000; hra := Fin 8000; other_allow := Fin 0;
  gross := Fin 28000; pf := Fin 1800; esi := Fin 0; pt := Fin 200;
  tds := Fin 0; encashment := Fin 0; total_deductions := Fin 2000;
  net_pay := net; pdf_path := None
|}.


(** A world in which the directory [dir] exists and has no directory under
    it: a path opens for writing when it names a file directly in [dir]. *)
Definition flat_directory (dir path : string) : option exn :=
  match drop_prefix (dir +:+ "/") path with
  | Some name =>
      if String.eqb name "" || contains "/" name
      then Some (FileNotFoundError path)
      else None
  | None => Some (FileNotFoundError path)
  end.



(** ** Computing before a load *)

Lemma failed_load_keeps_agent (disk : string -> outcome Workbook)
    (self self' : PayrollAgent) (path : string) :
  load_uploaded_excel disk self path = Return (self', false) -> self' = self.
Proof.
  unfold load_uploaded_excel.
  destruct (load_body disk self path); cbn; intros H; congruence.
Qed.

(** C10. The table mapping of a new agent is empty, and no operation
    other than a load that answers [True] changes it: not [update_policy],
    not [set_policies_direct], not a load that answers [False]. On an agent
    with the empty mapping, computing one payslip or all of them raises
    [KeyError] for the key [salary] and writes no file, and the calculation
    for a row that resolves raises [KeyError] for the key [attendance]; the
    error is not the [ValueError] of a missing employee. *)
Theorem compute_before_load_raises_KeyError (str_num : num -> string)
    (open_error : string -> option exn) (clock : nat -> string) :
  (forall dir, data (init dir) = ∅) /\
  (forall self text, data (update_policy self text) = data self) /\
  (forall self items, data (set_policies_direct self items) = data self) /\
  (forall disk self self' path,
     load_uploaded_excel disk self path = Return (self', false) ->
     data self' = data self) /\
  (forall (self : PayrollAgent) (now ident : string)
          (files : gmap string Document),
     data self = ∅ ->
     generate_all_payslips str_num open_error clock self files =
       (Raise (KeyError "salary"), files) /\
     generate_single_payslip str_num open_error self now ident files =
       (Raise (KeyError "salary"), files) /\
     (forall emp_row r, resolve emp_row = Return r ->
        calculate_payroll str_num self now emp_row =
          Raise (KeyError "attendance")) /\
     fst (generate_single_payslip str_num open_error self now ident files) <>
       Raise (ValueError "Employee not found")).
Proof.
  split; [reflexivity|]. split; [reflexivity|]. split; [reflexivity|].
  split.
  - intros disk self self' path Hload.
    now rewrite (failed_load_keeps_agent _ _ _ _ Hload).
  - intros self now ident files Hnl.
    unfold generate_all_payslips, generate_single_payslip, data_item.
    rewrite Hnl, lookup_empty. repeat split; try discriminate.
    intros emp_row r Hr. unfold calculate_payroll, read_attendance, data_item.
    rewrite Hr, Hnl, lookup_empty. reflexivity.
Qed.

Lemma compute_before_load_raises_KeyError_witness :
  generate_all_payslips (fun _ => "") (flat_directory "payslips")
    (fun _ => "March 2026")
    (set_policies_direct (init "payslips") [("pf_cap", PVNum (Fin 2000))]) ∅ =
    (Raise (KeyError "salary"), ∅) /\
  generate_single_payslip (fun _ => "") (flat_directory "payslips")
    (set_policies_direct (init "payslips") [("pf_cap", PVNum (Fin 2000))])
    "March 2026" "E001" ∅ =
    (Raise (KeyError "salary"), ∅).
Proof.
  destruct (compute_before_load_raises_KeyError (fun _ => "")
              (flat_directory "payslips") (fun _ => "March 2026"))
    as (_ & _ & _ & _ & Hraise).
  destruct (Hraise (set_policies_direct (init "payslips")
                      [("pf_cap", PVNum (Fin 2000))])
              "March 2026" "E001" ∅ eq_refl) as (Hall & Hone & _).
  split; [exact Hall | exact Hone].
Defined.

(** * Further properties *)

(** ** Rounding *)

Lemma round_half_even_comp (q q' : Q) :
  q == q' -> round_half_even q = round_half_even q'.
Proof.
  intros H. unfold round_half_even. cbv zeta.
  rewrite (Qfloor_comp _ _ H).
  assert (Hr : q - inject_Z (Qfloor q') == q' - inject_Z (Qfloor q'))
    by now rewrite H.
  rewrite (Qleb_comp _ _ Hr _ _ (Qeq_refl _)).
  now rewrite (Qeqb_comp _ _ Hr _ _ (Qeq_refl _)).
Qed.

Lemma py_round_comp (n : nat) (q q' : Q) :
  q == q' -> py_round n (Fin q) = py_round n (Fin q').
Proof.
  intros H. unfold py_round. cbv zeta. f_equal. apply Qred_complete.
  set (s := inject_Z (10 ^ Z.of_nat n)).
  rewrite (round_half_even_comp (q * s) (q' * s)); [reflexivity|].
  now rewrite H.
Qed.

Lemma Qred_inject_Z (z : Z) : Qred (inject_Z z) = inject_Z z.
Proof.
  unfold Qred, inject_Z.
  pose proof (Z.ggcd_gcd z 1) as Hg.
  pose proof (Z.ggcd_correct_divisors z 1) as Hd.
  destruct (Z.ggcd z 1) as [g [aa bb]]. cbn [fst snd] in *.
  rewrite Z.gcd_1_r in Hg. subst g. destruct Hd as [Ha Hb].
  rewrite Z.mul_1_l in Ha, Hb. subst aa bb. reflexivity.
Qed.

Lemma round_half_even_Z (z : Z) : round_half_even (inject_Z z) = z.
Proof.
  unfold round_half_even. cbv zeta. rewrite Qfloor_Z.
  assert (Hr : inject_Z z - inject_Z z == 0) by ring.
  rewrite (Qleb_comp _ _ Hr _ _ (Qeq_refl _)).
  now rewrite (Qeqb_comp _ _ Hr _ _ (Qeq_refl _)).
Qed.

(** Whole numbers are left as they are by [round]. *)
Lemma py_round_Z (n : nat) (z : Z) : py_round n (num_of_Z z) = num_of_Z z.
Proof.
  unfold py_round, num_of_Z. cbv zeta. f_equal.
  rewrite <- (Qred_inject_Z z) at 2. apply Qred_complete.
  assert (Hs : ~ inject_Z (10 ^ Z.of_nat n) == 0).
  { unfold Qeq, inject_Z. simpl. pose proof (Z.pow_pos_nonneg 10 (Z.of_nat n)). lia. }
  rewrite (round_half_even_comp _ (inject_Z (z * 10 ^ Z.of_nat n)))
    by (rewrite inject_Z_mult; reflexivity).
  rewrite round_half_even_Z, inject_Z_mult. field. exact Hs.
Qed.

(** ** Outcomes of [calculate_payroll] *)

Lemma is_zero_num_of_Z (z : Z) : is_zero (num_of_Z z) = (z =? 0)%Z.
Proof.
  unfold is_zero, num_of_Z. destruct (Z.eqb_spec z 0) as [-> | Hne].
  - reflexivity.
  - destruct (Qeq_bool (inject_Z z) 0) eqn:Hq; [|reflexivity].
    apply Qeq_bool_eq in Hq. unfold Qeq, inject_Z in Hq. simpl in Hq. lia.
Qed.

Definition type_error_get : exn :=
  TypeError "get() takes from 1 to 2 positional arguments but 3 were given".

Lemma read_attendance_outcome (str_num : num -> string) (self : PayrollAgent)
    (ident : Cell) (days : Z) :
  read_attendance str_num self ident days =
  match data self !! "attendance" with
  | None => Raise (KeyError "attendance")
  | Some att =>
      if df_empty att
         || df_empty (matching_rows str_num att (py_str str_num ident))
      then Return (no_attendance days)
      else Raise type_error_get
  end.
Proof.
  unfold read_attendance, data_item.
  destruct (data self !! "attendance") as [att|]; [|reflexivity].
  cbn [mbind outcome_bind]. destruct (df_empty att); [reflexivity|].
  cbn [negb orb].
  destruct (df_empty (matching_rows str_num att (py_str str_num ident))) eqn:Hm;
    [reflexivity|].
  cbn [negb]. unfold iloc0. unfold df_empty in Hm.
  destruct (columns (matching_rows str_num att _)); [discriminate|].
  destruct (rows (matching_rows str_num att _)); [discriminate|].
  reflexivity.
Qed.

Lemma prorated_gross_no_attendance (r : Resolved) :
  prorated_gross r (no_attendance (res_days_in_month r)) =
  if float_limit <=? Z.abs (res_days_in_month r)
  then Raise (OverflowError "int too large to convert to float")
  else if (res_days_in_month r =? 0)%Z
  then Raise (ZeroDivisionError "float division by zero")
  else Return (num_mul (num_quot (res_gross_salary r)
                          (num_of_Z (res_days_in_month r)))
                 (num_add (num_of_Z (res_days_in_month r)) (Fin 0))).
Proof.
  unfold prorated_gross, float_of_int.
  destruct (float_limit <=? Z.abs (res_days_in_month r)); [reflexivity|].
  cbn [mbind outcome_bind]. unfold num_div. rewrite is_zero_num_of_Z.
  destruct (res_days_in_month r =? 0)%Z; reflexivity.
Qed.

Lemma is_negative_comp (x y : Q) : x == y -> is_negative x = is_negative y.
Proof.
  intros H. unfold is_negative.
  now rewrite (Qleb_comp _ _ (Qeq_refl 0) _ _ H).
Qed.

(** Scaling the gross down to a day and up to the whole month again
    changes nothing once rounded. *)
Lemma py_round_whole_month (n : nat) (g : num) (z : Z) :
  z <> 0 ->
  py_round n (num_mul (num_quot g (num_of_Z z)) (num_add (num_of_Z z) (Fin 0)))
  = py_round n g.
Proof.
  intros Hz.
  assert (Hnz : ~ inject_Z z == 0) by (unfold Qeq, inject_Z; simpl; lia).
  assert (Hsum : Qred (inject_Z z + 0) == inject_Z z)
    by (rewrite Qred_correct; ring).
  destruct g as [q|s|]; [| |reflexivity].
  - unfold num_mul, num_quot, num_add, num_of_Z. apply py_round_comp.
    rewrite !Qred_correct. field. exact Hnz.
  - unfold num_mul, num_quot, num_add, num_of_Z. cbn [py_round].
    rewrite (Qeqb_comp _ _ Hsum _ _ (Qeq_refl 0)).
    destruct (Qeq_bool (inject_Z z) 0) eqn:Hq;
      [apply Qeq_bool_eq in Hq; contradiction|].
    rewrite (is_negative_comp _ _ Hsum).
    now destruct s, (is_negative (inject_Z z)).
Qed.



(** X2. Every result [calculate_payroll] returns is computed without
    attendance data: the present and payable days are the days of the
    month, paid leaves and LOP are 0, the remaining leaves are 12, and the
    prorated gross is the gross salary rounded to two places. *)
Theorem returned_payslip_ignores_attendance (str_num : num -> string)
    (self : PayrollAgent) (now : string) (emp_row : Row) (d : PayrollResult) :
  calculate_payroll str_num self now emp_row = Return d ->
  exists r,
    resolve emp_row = Return r /\
    present_days d = num_of_Z (res_days_in_month r) /\
    approved_paid_leaves d = Fin 0 /\
    lop_days d = Fin 0 /\
    payable_days d = num_of_Z (res_days_in_month r) /\
    remaining_leaves d = Fin 12 /\
    gross d = py_round 2 (res_gross_salary r).
Proof.
  unfold calculate_payroll. intros Hd.
  destruct (resolve emp_row) as [r|e]; [|discriminate].
  cbn [mbind outcome_bind] in Hd. rewrite read_attendance_outcome in Hd.
  destruct (data self !! "attendance") as [att|]; [|discriminate].
  destruct (df_empty att || df_empty (matching_rows str_num att _));
    [|discriminate].
  cbn [mbind outcome_bind] in Hd. unfold deductions in Hd.
  rewrite prorated_gross_no_attendance in Hd.
  destruct (float_limit <=? Z.abs (res_days_in_month r)); [discriminate|].
  destruct (Z.eqb_spec (res_days_in_month r) 0) as [Hz|Hz]; [discriminate|].
  cbn [mbind outcome_bind] in Hd. unfold deductions_from in Hd.
  destruct (encashment_due_returns (policies self) r
              (no_attendance (res_days_in_month r))) as [e He].
  rewrite He in Hd. cbn [mbind outcome_bind] in Hd.
  injection Hd as <-. exists r. cbn [present_days approved_paid_leaves lop_days
    payable_days remaining_leaves gross no_attendance att_present_days
    att_approved_paid_leaves att_lop_days att_remaining_leaves].
  split; [reflexivity|]. split; [apply py_round_Z|].
  split; [reflexivity|]. split; [reflexivity|]. split.
  - transitivity (py_round 1 (num_of_Z (res_days_in_month r)));
      [|apply py_round_Z].
    unfold num_add, num_of_Z. apply py_round_comp.
    rewrite Qred_correct. ring.
  - split; [reflexivity|]. apply py_round_whole_month. exact Hz.
Qed.

Lemma returned_payslip_ignores_attendance_witness :
  exists d,
    calculate_payroll (fun _ => "") (agent_without_attendance empty_frame)
      "March 2026" reference_row = Return d /\
    payable_days d = Fin 30 /\ remaining_leaves d = Fin 12.
Proof.
  eexists. split; [reflexivity|].
  destruct (returned_payslip_ignores_attendance (fun _ => "")
              (agent_without_attendance empty_frame) "March 2026"
              reference_row _ eq_refl)
    as (r & Hr & _ & _ & _ & Hpay & Hrem & _).
  vm_compute in Hr. injection Hr as <-. split; [exact Hpay | exact Hrem].
Defined.

Lemma resolve_days (emp_row : Row) (r : Resolved) :
  resolve emp_row = Return r ->
  py_int (get emp_row kw_days (CNum (Fin 31))) = Return (res_days_in_month r).
Proof.
  unfold resolve.
  destruct (py_float (get emp_row kw_basic _)) as [b|]; [|discriminate].
  cbn [mbind outcome_bind].
  destruct (py_float (get emp_row kw_hra _)) as [h|]; [|discriminate].
  cbn [mbind outcome_bind].
  destruct (py_float (get emp_row kw_other _)) as [o|]; [|discriminate].
  cbn [mbind outcome_bind].
  destruct (py_float (get emp_row kw_gross _)) as [g|]; [|discriminate].
  cbn [mbind outcome_bind].
  destruct (py_int (get emp_row kw_days _)) as [z|]; [|discriminate].
  cbn [mbind outcome_bind].
  destruct (py_float (get emp_row kw_tds _)) as [t|]; [|discriminate].
  cbn [mbind outcome_bind]. intros H. injection H as <-. reflexivity.
Qed.

Lemma truncate_small (q : Q) : (-1 < q)%Q -> (q < 1)%Q -> truncate q = 0.
Proof.
  unfold Qlt, truncate. destruct q as [n d]. simpl. intros Hlo Hhi.
  apply Z.quot_small_iff; lia.
Qed.

(** X3. When the Days in Month cell holds a number strictly between -1 and
    1 (0, or 0.5, which is cut to 0), the calculation of a row that
    otherwise resolves, with no attendance row for the employee, raises
    [ZeroDivisionError]. *)
Theorem calculate_payroll_zero_days (str_num : num -> string)
    (self : PayrollAgent) (now : string) (emp_row : Row) (r : Resolved)
    (att : DataFrame) (q : Q) :
  resolve emp_row = Return r ->
  field_holds emp_row kw_days (Some q) ->
  (-1 < q)%Q -> (q < 1)%Q ->
  data self !! "attendance" = Some att ->
  df_empty att
    || df_empty (matching_rows str_num att (py_str str_num (res_emp_id r)))
    = true ->
  calculate_payroll str_num self now emp_row =
  Raise (ZeroDivisionError "float division by zero").
Proof.
  intros Hr Hq Hlo Hhi Ha Hm.
  assert (Hz : res_days_in_month r = 0).
  { apply resolve_days in Hr. rewrite get_first_cell, Hq in Hr.
    cbn in Hr. injection Hr as <-. apply truncate_small; assumption. }
  unfold calculate_payroll. rewrite Hr. cbn [mbind outcome_bind].
  rewrite read_attendance_outcome, Ha, Hm. cbn [mbind outcome_bind].
  unfold deductions. rewrite prorated_gross_no_attendance, Hz. reflexivity.
Qed.

Lemma calculate_payroll_zero_days_witness :
  calculate_payroll (fun _ => "") (agent_without_attendance empty_frame)
    "March 2026"
    [("Emp Code", CText "E001"); ("Gross", CNum (Fin 28000));
     ("Days in Month", CNum (Fin (1 # 2)))] =
  Raise (ZeroDivisionError "float division by zero").
Proof.
  eapply (calculate_payroll_zero_days (fun _ => "")
            (agent_without_attendance empty_frame) "March 2026" _ _
            empty_frame (1 # 2)).
  - reflexivity.
  - reflexivity.
  - reflexivity.
  - reflexivity.
  - reflexivity.
  - reflexivity.
Defined.

(** X4. With leave encashment enabled, every returned payslip carries the
    encashment of min(12, encash_max_days) days at (basic + HRA) / 30 a day,
    whatever the attendance sheet says about the leave balance; with it
    disabled the encashment is 0. *)
Theorem returned_payslip_encashment (str_num : num -> string)
    (self : PayrollAgent) (now : string) (emp_row : Row) (d : PayrollResult) :
  calculate_payroll str_num self now emp_row = Return d ->
  exists r,
    resolve emp_row = Return r /\
    encashment d =
      if leave_encashment (policies self)
      then py_round 2
             (num_mul (num_quot (num_add (res_basic_da r) (res_hra r)) (Fin 30))
                      (py_min (Fin 12) (encash_max_days (policies self))))
      else Fin 0.
Proof.
  unfold calculate_payroll. intros Hd.
  destruct (resolve emp_row) as [r|e]; [|discriminate].
  cbn [mbind outcome_bind] in Hd. rewrite read_attendance_outcome in Hd.
  destruct (data self !! "attendance") as [att|]; [|discriminate].
  destruct (df_empty att || df_empty (matching_rows str_num att _));
    [|discriminate].
  cbn [mbind outcome_bind] in Hd. unfold deductions in Hd.
  destruct (prorated_gross r _) as [x|]; [|discriminate].
  cbn [mbind outcome_bind] in Hd. unfold deductions_from, encashment_due in Hd.
  exists r. split; [reflexivity|].
  destruct (leave_encashment (policies self)); cbn in Hd;
    injection Hd as <-; reflexivity.
Qed.

Lemma returned_payslip_encashment_witness :
  exists d,
    calculate_payroll (fun _ => "")
      (set_policies (agent_without_attendance empty_frame)
         (set_leave_encashment default_policies true))
      "March 2026" reference_row = Return d /\
    encashment d = Fin (933333 # 100).
Proof.
  eexists. split; [reflexivity|].
  destruct (returned_payslip_encashment (fun _ => "")
              (set_policies (agent_without_attendance empty_frame)
                 (set_leave_encashment default_policies true))
              "March 2026" reference_row _ eq_refl) as (r & Hr & Henc).
  vm_compute in Hr. injection Hr as <-. exact Henc.
Defined.

(** ** Bounds on the deductions *)

Lemma round_half_even_range (q : Q) :
  round_half_even q = Qfloor q \/ round_half_even q = Qfloor q + 1.
Proof.
  unfold round_half_even. cbv zeta.
  destruct (Qle_bool _ _); [destruct (Qeq_bool _ _); [destruct (Z.even _)|]|];
    auto.
Qed.

Lemma Qle_bool_false (x y : Q) : Qle_bool x y = false -> (y < x)%Q.
Proof.
  intros H. apply Qnot_le_lt. intros Hle.
  apply Qle_bool_iff in Hle. congruence.
Qed.

Lemma round_half_even_mono (q q' : Q) :
  (q <= q')%Q -> round_half_even q <= round_half_even q'.
Proof.
  intros Hle. pose proof (Qfloor_resp_le q q' Hle) as Hf.
  destruct (Z.eq_dec (Qfloor q) (Qfloor q')) as [Heq | Hne].
  - unfold round_half_even. cbv zeta. rewrite <- Heq.
    set (f := Qfloor q).
    destruct (Qle_bool (q - inject_Z f) (1 # 2)) eqn:H1;
      destruct (Qle_bool (q' - inject_Z f) (1 # 2)) eqn:H2;
      destruct (Qeq_bool (q - inject_Z f) (1 # 2)) eqn:H3;
      destruct (Qeq_bool (q' - inject_Z f) (1 # 2)) eqn:H4;
      destruct (Z.even f); try lia; exfalso;
      repeat match goal with
             | H : Qle_bool _ _ = true |- _ => apply Qle_bool_iff in H
             | H : Qle_bool _ _ = false |- _ => apply Qle_bool_false in H
             | H : Qeq_bool _ _ = true |- _ => apply Qeq_bool_eq in H
             | H : Qeq_bool _ _ = false |- _ => apply Qeq_bool_neq in H
             end;
      try lra.
    all: try (apply H4; lra).
    all: try (apply H3; lra).
  - destruct (round_half_even_range q) as [-> | ->];
      destruct (round_half_even_range q') as [-> | ->]; lia.
Qed.

Lemma py_round_mono (n : nat) (x y : Q) :
  (x <= y)%Q -> num_leb (py_round n (Fin x)) (py_round n (Fin y)) = true.
Proof.
  intros Hle. unfold py_round, num_leb. cbv zeta.
  apply Qle_bool_iff. apply Qred_le.
  set (s := 10 ^ Z.of_nat n).
  assert (Hs : (0 < inject_Z s)%Q).
  { unfold Qlt, inject_Z. simpl. subst s.
    pose proof (Z.pow_pos_nonneg 10 (Z.of_nat n)). lia. }
  apply Qmult_le_compat_r; [|apply Qlt_le_weak, Qinv_lt_0_compat, Hs].
  rewrite <- Zle_Qle. apply round_half_even_mono.
  apply Qmult_le_compat_r; [exact Hle | apply Qlt_le_weak, Hs].
Qed.

Lemma py_min_le_r (a b : Q) : exists m, py_min (Fin a) (Fin b) = Fin m /\ (m <= b)%Q.
Proof.
  unfold py_min, num_ltb. destruct (Qle_bool a b) eqn:H; cbn [negb].
  - exists a. split; [reflexivity | now apply Qle_bool_iff].
  - exists b. split; [reflexivity | apply Qle_refl].
Qed.

(** X5. With a numeric basic, rate and cap, the PF on a payslip never
    exceeds the cap rounded to two places. *)
Theorem pf_never_exceeds_cap (str_num : num -> string) (p : Policies)
    (r : Resolved) (a : Attendance) (now : string) (d : PayrollResult)
    (b x c : Q) :
  res_basic_da r = Fin b -> pf_rate p = Fin x -> pf_cap p = Fin c ->
  deductions str_num p r a now = Return d ->
  num_leb (pf d) (py_round 2 (Fin c)) = true.
Proof.
  intros Hb Hx Hc Hd. unfold deductions in Hd.
  destruct (prorated_gross r a) as [g|]; [|discriminate].
  cbn [mbind outcome_bind] in Hd. unfold deductions_from in Hd.
  destruct (encashment_due_returns p r a) as [e He].
  rewrite He in Hd. cbn [mbind outcome_bind] in Hd.
  injection Hd as <-. cbn [pf]. unfold pf_due.
  rewrite Hb, Hx, Hc. cbn [num_mul].
  destruct (py_min_le_r (Qred (b * x)) c) as (m & -> & Hm).
  apply py_round_mono. exact Hm.
Qed.

Lemma pf_never_exceeds_cap_witness :
  exists d,
    deductions (fun _ => "") default_policies
      (reference_record CNone CNone CNone) (no_attendance 30) "March 2026"
      = Return d /\
    num_leb (pf d) (Fin 1800) = true.
Proof.
  eexists. split; [reflexivity|].
  exact (pf_never_exceeds_cap (fun _ => "") default_policies
           (reference_record CNone CNone CNone) (no_attendance 30)
           "March 2026" _ 20000 (12 # 100) 1800
           eq_refl eq_refl eq_refl eq_refl).
Defined.

(** ** One payslip: [generate_single_payslip] *)

Lemma filter_none {A : Type} (f : A -> bool) (l : list A) :
  Forall (fun x => f x = false) l -> List.filter f l = [].
Proof.
  induction 1 as [|x l Hx _ IH]; simpl; [reflexivity|]. now rewrite Hx.
Qed.


(** Where a result is written, and the result as a caller hands it out. *)
Definition payslip_path (self : PayrollAgent) (d : PayrollResult) : string :=
  os_path_join (payslip_dir self) (payslip_filename d).

Definition handed_out (self : PayrollAgent) (p : PayrollResult) : PayrollResult :=
  with_pdf_path p (payslip_path self p).

Definition write_payslip (self : PayrollAgent) (files : gmap string Document)
    (d : PayrollResult) : gmap string Document :=
  <[payslip_path self d := payslip_document d]> files.

Lemma generate_payslip_pdf_cases (open_error : string -> option exn)
    (self : PayrollAgent) (p : PayrollResult) (files : gmap string Document) :
  generate_payslip_pdf open_error self p files =
  match open_error (payslip_path self p) with
  | Some e => (Raise e, files)
  | None => (Return (payslip_path self p), write_payslip self files p)
  end.
Proof. reflexivity. Qed.


(** X6. When no row of the loaded salary table mentions the identifier,
    [generate_single_payslip] raises [ValueError("Employee not found")] and
    writes no file; an empty table is such a case. *)
Theorem generate_single_payslip_not_found (str_num : num -> string)
    (open_error : string -> option exn)
    (self : PayrollAgent) (now ident : string) (files : gmap string Document)
    (salary : DataFrame) :
  data self !! "salary" = Some salary ->
  Forall (fun cells => row_mentions str_num ident (series salary cells) = false)
         (rows salary) ->
  generate_single_payslip str_num open_error self now ident files =
  (Raise (ValueError "Employee not found"), files).
Proof.
  intros Hs Hnone. unfold generate_single_payslip, data_item. rewrite Hs.
  unfold matching_rows, df_empty. cbn [columns rows].
  rewrite (filter_none _ _ Hnone).
  destruct (columns salary); reflexivity.
Qed.

Definition two_employees : DataFrame := {|
  columns := text_labels ["Emp Code"; "Name"; "Basic"];
  rows := [[CText "E10"; CText "Ravi"; CNum (Fin 30000)];
           [CText "E1"; CText "Asha"; CNum (Fin 20000)]]
|}.

Lemma generate_single_payslip_not_found_witness :
  generate_single_payslip (fun _ => "") (flat_directory "payslips")
    (agent_without_attendance two_employees)
    "March 2026" "E7" ∅ = (Raise (ValueError "Employee not found"), ∅).
Proof.
  apply (generate_single_payslip_not_found (fun _ => "")
           (flat_directory "payslips")
           (agent_without_attendance two_employees) "March 2026" "E7" ∅
           two_employees).
  - reflexivity.
  - repeat constructor.
Defined.









(** ** All payslips: [generate_all_payslips] *)

Section AllPayslips.

Variable str_num : num -> string.
Variable open_error : string -> option exn.
Variable clock : nat -> string.
Variable self : PayrollAgent.

(** The row at a position is processed with the result [p]: its
    calculation, at the clock's reading for the position, returns [p], and
    the path of the document of [p] opens. *)
Definition processed (ir : nat * Row) (p : PayrollResult) : Prop :=
  calculate_payroll str_num self (clock (fst ir)) (snd ir) = Return p /\
  open_error (payslip_path self p) = None.


(** [d] is the result the loop hands out for the row. *)
Definition result_of (ir : nat * Row) (d : PayrollResult) : Prop :=
  exists p, processed ir p /\ d = handed_out self p.


(** What a completed loop has done: one result a row, in order, and the
    documents written one after the other. *)
Lemma payslips_loop_returns (todo : list (nat * Row))
    (acc res : list PayrollResult) (files files' : gmap string Document) :
  payslips_loop str_num open_error clock self todo acc files =
    (Return res, files') ->
  exists news,
    res = acc ++ news /\
    Forall2 result_of todo news /\
    files' = fold_left (write_payslip self) news files.
Proof.
  revert acc files. induction todo as [|[i row] todo IH]; intros acc files; simpl.
  - intros H. injection H as <- <-. exists []. rewrite app_nil_r.
    split; [reflexivity|]. split; [constructor | reflexivity].
  - destruct (calculate_payroll str_num self (clock i) row) as [p|e] eqn:Hp;
      [|discriminate].
    rewrite generate_payslip_pdf_cases.
    destruct (open_error (payslip_path self p)) eqn:Ho; [discriminate|].
    intros H. destruct (IH _ _ H) as (news & -> & Hall & ->).
    exists (handed_out self p :: news). rewrite <- app_assoc.
    split; [reflexivity|]. split.
    + constructor; [|exact Hall].
      exists p. split; [split; [exact Hp | exact Ho] | reflexivity].
    + reflexivity.
Qed.



End AllPayslips.


Lemma fold_write_other (self : PayrollAgent) (news : list PayrollResult)
    (files : gmap string Document) (path : string) :
  Forall (fun d => payslip_path self d <> path) news ->
  fold_left (write_payslip self) news files !! path = files !! path.
Proof.
  intros Hall. revert files.
  induction Hall as [|d news Hd _ IH]; intros files; simpl; [reflexivity|].
  rewrite IH. unfold write_payslip. now apply lookup_insert_ne.
Qed.



Lemma Forall2_map_l {A B C : Type} (f : A -> B) (R : B -> C -> Prop)
    (l : list A) (k : list C) :
  Forall2 R (map f l) k -> Forall2 (fun a c => R (f a) c) l k.
Proof.
  revert k. induction l as [|a l IH]; intros k H; inversion H; subst;
    constructor; auto.
Qed.

Lemma Forall_map {A B : Type} (f : A -> B) (P : B -> Prop) (l : list A) :
  Forall (fun a => P (f a)) l -> Forall P (map f l).
Proof. induction 1; simpl; constructor; auto. Qed.



Definition agent_two_employees : PayrollAgent :=
  agent_without_attendance two_employees.






Lemma resolve_emp_id (emp_row : Row) (r : Resolved) :
  resolve emp_row = Return r ->
  res_emp_id r = get emp_row kw_emp_id (CText "Unknown").
Proof.
  intros Hr. apply resolve_returns_iff in Hr as (_ & -> & _).
  symmetry. apply get_first_cell.
Qed.

(** The identity fields of a returned result. *)
Lemma calculate_payroll_identity (str_num : num -> string) (self : PayrollAgent)
    (now : string) (emp_row : Row) (p : PayrollResult) :
  calculate_payroll str_num self now emp_row = Return p ->
  emp_id p = py_str str_num (get emp_row kw_emp_id (CText "Unknown")) /\
  month p = now.
Proof.
  unfold calculate_payroll. intros Hd.
  destruct (resolve emp_row) as [r|e] eqn:Hr; [|discriminate].
  cbn [mbind outcome_bind] in Hd.
  destruct (read_attendance str_num self _ _) as [a|]; [|discriminate].
  cbn [mbind outcome_bind] in Hd. unfold deductions in Hd.
  destruct (prorated_gross r a) as [x|]; [|discriminate].
  cbn [mbind outcome_bind] in Hd. unfold deductions_from in Hd.
  destruct (encashment_due_returns (policies self) r a) as [e He].
  rewrite He in Hd. cbn [mbind outcome_bind] in Hd.
  injection Hd as <-. cbn [emp_id month].
  rewrite (resolve_emp_id _ _ Hr). split; reflexivity.
Qed.

Lemma no_match_series (kws : list string) (salary : DataFrame)
    (cells : list Cell) :
  Forall (fun col => label_matches kws (label_str col) = false)
         (columns salary) ->
  no_match kws (series salary cells).
Proof.
  unfold series, no_match. intros Hcols. revert cells.
  induction Hcols as [|col cols Hc _ IH]; intros cells; [constructor|].
  destruct cells as [|c cells]; [constructor|].
  simpl. constructor; [exact Hc | apply IH].
Qed.

Lemma enumerate_snd {A : Type} (i : nat) (l : list A) (ir : nat * A) :
  In ir (enumerate i l) -> In (snd ir) l.
Proof.
  revert i. induction l as [|x l IH]; intros i; [intros []|].
  intros [<- | Hin]; [left; reflexivity | right; exact (IH _ Hin)].
Qed.

Lemma fold_write_last (self : PayrollAgent) (news : list PayrollResult)
    (files : gmap string Document) (d : PayrollResult) :
  last news = Some d ->
  fold_left (write_payslip self) news files !! payslip_path self d =
  Some (payslip_document d).
Proof.
  intros Hl. apply last_Some in Hl as [l' ->].
  rewrite fold_left_app. simpl. unfold write_payslip. apply lookup_insert_eq.
Qed.

(** X11. When no column label of the salary table matches an identifier
    keyword and the clock gives one month label throughout the run, every
    result of [generate_all_payslips] carries the id [Unknown], all
    documents go to the one path [payslip_Unknown_<month>.pdf], and what
    that file holds in the end is the document of the last row. *)
Theorem generate_all_payslips_without_id_column (str_num : num -> string)
    (open_error : string -> option exn) (clock : nat -> string)
    (self : PayrollAgent) (now : string) (files files' : gmap string Document)
    (salary : DataFrame) (results : list PayrollResult) :
  data self !! "salary" = Some salary ->
  Forall (fun col => label_matches kw_emp_id (label_str col) = false)
         (columns salary) ->
  (forall i, clock i = now) ->
  generate_all_payslips str_num open_error clock self files =
    (Return results, files') ->
  let path := os_path_join (payslip_dir self)
                ("payslip_Unknown_" +:+ replace_char " " "_" now +:+ ".pdf") in
  Forall (fun d => emp_id d = "Unknown" /\ pdf_path d = Some path) results /\
  (forall other, other <> path -> files' !! other = files !! other) /\
  (forall d, last results = Some d -> files' !! path = Some (payslip_document d)).
Proof.
  intros Hs Hcols Hclock Hgen path.
  unfold generate_all_payslips, data_item in Hgen. rewrite Hs in Hgen.
  destruct (payslips_loop_returns _ _ _ _ _ _ _ _ _ Hgen)
    as (news & -> & Hres & ->). cbn [app]. clear Hgen.
  assert (Hrows : Forall (fun ir => exists cells, snd ir = series salary cells)
                         (iterrows salary)).
  { apply Forall_forall. intros ir Hin. apply list_elem_of_In in Hin.
    apply enumerate_snd in Hin. apply in_map_iff in Hin as (cells & <- & _).
    exists cells. reflexivity. }
  assert (Hall : Forall (fun d => emp_id d = "Unknown" /\
                                  payslip_path self d = path /\
                                  pdf_path d = Some path) news).
  { induction Hres as [|ir d l k (p & [Hp _] & ->) _ IH]; constructor.
    2: { apply IH. inversion Hrows; assumption. }
    inversion Hrows as [|? ? [cells Hcells] _]; subst.
    destruct (calculate_payroll_identity _ _ _ _ _ Hp) as [Hid Hmonth].
    rewrite Hcells in Hid.
    rewrite (get_no_match _ _ _ (no_match_series kw_emp_id salary cells Hcols))
      in Hid. cbn [py_str] in Hid. rewrite Hclock in Hmonth.
    assert (Hpath : payslip_path self p = path).
    { unfold payslip_path, payslip_filename. rewrite Hid, Hmonth. reflexivity. }
    split; [exact Hid|]. split; [exact Hpath|].
    unfold handed_out. cbn [pdf_path]. now rewrite Hpath. }
  split; [|split].
  - eapply Forall_impl; [exact Hall|]. intros d (Hid & _ & Hp). now split.
  - intros other Hne. apply fold_write_other.
    eapply Forall_impl; [exact Hall|]. intros d (_ & Hp & _). congruence.
  - intros d Hl. pose proof (fold_write_last self news files d Hl) as Hw.
    assert (Hin : In d news).
    { apply last_Some in Hl as [l' ->]. apply in_or_app. right. left. reflexivity. }
    rewrite Forall_forall in Hall.
    destruct (Hall d (proj2 (list_elem_of_In _ _) Hin)) as (_ & Hp & _).
    now rewrite <- Hp.
Qed.

Definition no_id_column : DataFrame := {|
  columns := text_labels ["Name"; "Basic"];
  rows := [[CText "Asha"; CNum (Fin 20000)]; [CText "Ravi"; CNum (Fin 30000)]]
|}.

Lemma generate_all_payslips_without_id_column_witness :
  exists results files',
    generate_all_payslips (fun _ => "") (flat_directory "payslips")
      (fun _ => "March 2026") (agent_without_attendance no_id_column) ∅
      = (Return results, files') /\
    Forall (fun d => emp_id d = "Unknown" /\
                     pdf_path d = Some "payslips/payslip_Unknown_March_2026.pdf")
           results.
Proof.
  eexists _, _. split; [reflexivity|].
  refine (proj1 (generate_all_payslips_without_id_column (fun _ => "")
                   (flat_directory "payslips") (fun _ => "March 2026")
                   (agent_without_attendance no_id_column) "March 2026" ∅ _
                   no_id_column _ eq_refl _ (fun _ => eq_refl) eq_refl)).
  repeat constructor.
Defined.

(** ** File names *)

Lemma append_inv_head (a x y : string) : a +:+ x = a +:+ y -> x = y.
Proof.
  induction a as [|c a IH]; [exact (fun H => H)|].
  rewrite !append_cons. intros H. injection H as H. exact (IH H).
Qed.

Lemma append_inv_tail (x y s : string) : x +:+ s = y +:+ s -> x = y.
Proof.
  revert y. induction x as [|c x IH]; intros y H.
  - destruct y as [|d y]; [reflexivity|]. exfalso.
    apply (f_equal String.length) in H. rewrite !length_app in H.
    simpl in H. lia.
  - destruct y as [|d y].
    + exfalso. apply (f_equal String.length) in H. rewrite !length_app in H.
      simpl in H. lia.
    + rewrite !append_cons in H. injection H as -> H. f_equal. exact (IH _ H).
Qed.

Lemma os_path_join_payslip (dir name : string) :
  os_path_join dir ("payslip_" +:+ name) =
  (if String.eqb dir "" || ends_with_slash dir then dir else dir +:+ "/")
  +:+ "payslip_" +:+ name.
Proof.
  unfold os_path_join.
  change (String.prefix "/" ("payslip_" +:+ name)) with false.
  destruct (String.eqb dir "" || ends_with_slash dir); [reflexivity|].
  now rewrite append_assoc.
Qed.

Lemma payslip_path_injective_ids (self : PayrollAgent) (d1 d2 : PayrollResult) :
  month d1 = month d2 ->
  payslip_path self d1 = payslip_path self d2 ->
  emp_id d1 = emp_id d2.
Proof.
  intros Hm. unfold payslip_path, payslip_filename.
  rewrite !os_path_join_payslip, Hm. intros H.
  apply append_inv_head, append_inv_head in H.
  exact (append_inv_tail _ _ _ H).
Qed.

(** X12. Within one month, the path of a payslip and the employee id
    determine each other: two results with the same month label are
    written to the same path exactly when their ids are equal. *)
Theorem payslip_path_same_iff_same_id (self : PayrollAgent)
    (d1 d2 : PayrollResult) :
  month d1 = month d2 ->
  (payslip_path self d1 = payslip_path self d2 <-> emp_id d1 = emp_id d2).
Proof.
  intros Hm. split.
  - apply payslip_path_injective_ids. exact Hm.
  - intros Hid. unfold payslip_path, payslip_filename. now rewrite Hm, Hid.
Qed.

Lemma payslip_path_same_iff_same_id_witness :
  payslip_path (init "payslips") (sample_result (Fin 26000)) =
  payslip_path (init "payslips") (sample_result (Fin 25000)).
Proof.
  apply (payslip_path_same_iff_same_id (init "payslips")
           (sample_result (Fin 26000)) (sample_result (Fin 25000))).
  - reflexivity.
  - reflexivity.
Defined.

(** Text without a blank and without an underscore. *)
Definition plain (s : string) : Prop :=
  contains " " s = false /\ contains "_" s = false.

(** A month label as [strftime("%B %Y")] makes it: the name of a month and
    a year with one blank between them, neither with a blank or an
    underscore in it. *)
Definition month_label (s : string) : Prop :=
  exists m y, s = m +:+ " " +:+ y /\ plain m /\ plain y.

Lemma contains_cons_false (n : string) (c : ascii) (s : string) :
  contains n (String c s) = false -> contains n s = false.
Proof. cbn [contains]. intros H. now apply orb_false_iff in H. Qed.

Lemma replace_char_app (old new : ascii) (a b : string) :
  replace_char old new (a +:+ b) =
  replace_char old new a +:+ replace_char old new b.
Proof.
  induction a as [|c a IH]; [reflexivity|].
  rewrite append_cons. cbn [replace_char]. now rewrite IH, append_cons.
Qed.

Lemma replace_char_absent (s : string) :
  contains " " s = false -> replace_char " " "_" s = s.
Proof.
  induction s as [|c s IH]; [reflexivity|]. intros H.
  cbn [replace_char]. rewrite (IH (contains_cons_false _ _ _ H)).
  destruct (Ascii.eqb_spec c " ") as [-> | _]; [|reflexivity].
  cbn [contains] in H. apply orb_false_iff in H as [H _].
  destruct s; simpl in H; discriminate H.
Qed.

(** A text splits in one way only at its last underscore. *)
Lemma split_last_underscore (x1 x2 t1 t2 : string) :
  contains "_" t1 = false -> contains "_" t2 = false ->
  x1 +:+ "_" +:+ t1 = x2 +:+ "_" +:+ t2 -> x1 = x2 /\ t1 = t2.
Proof.
  intros H1 H2. revert x2.
  induction x1 as [|c x1 IH]; intros [|d x2] H.
  - rewrite !append_nil in H. apply (append_inv_head "_") in H.
    split; [reflexivity | exact H].
  - exfalso. rewrite append_nil, append_cons in H.
    change ("_" +:+ t1) with (String "_" t1) in H. injection H as _ H.
    assert (Hc : contains "_" t1 = true)
      by (apply contains_spec; exists x2, t2; exact H).
    congruence.
  - exfalso. rewrite append_nil, append_cons in H.
    change ("_" +:+ t2) with (String "_" t2) in H. injection H as _ H.
    assert (Hc : contains "_" t2 = true)
      by (apply contains_spec; exists x1, t1; symmetry; exact H).
    congruence.
  - rewrite !append_cons in H. injection H as -> H.
    destruct (IH _ H) as [-> ->]. split; reflexivity.
Qed.

(** Two month labels cannot make two ids share a path. *)
Lemma payslip_path_injective_labels (self : PayrollAgent)
    (d1 d2 : PayrollResult) :
  month_label (month d1) -> month_label (month d2) ->
  payslip_path self d1 = payslip_path self d2 ->
  emp_id d1 = emp_id d2.
Proof.
  intros (m1 & y1 & E1 & [Hm1 Hm1'] & [Hy1 Hy1'])
         (m2 & y2 & E2 & [Hm2 Hm2'] & [Hy2 Hy2']).
  unfold payslip_path, payslip_filename.
  rewrite !os_path_join_payslip, E1, E2. intros H.
  apply append_inv_head, append_inv_head in H.
  rewrite !replace_char_app in H.
  rewrite (replace_char_absent m1 Hm1), (replace_char_absent y1 Hy1),
          (replace_char_absent m2 Hm2), (replace_char_absent y2 Hy2) in H.
  change (replace_char " " "_" " ") with "_" in H.
  rewrite <- !append_assoc in H. apply append_inv_tail in H.
  rewrite (append_assoc _ "_" y1), (append_assoc _ "_" y2) in H.
  apply split_last_underscore in H as [H _]; [|assumption|assumption].
  rewrite !append_assoc in H.
  apply split_last_underscore in H as [H _]; [|assumption|assumption].
  exact H.
Qed.

Lemma fold_write_exact (self : PayrollAgent) (news : list PayrollResult)
    (files : gmap string Document) (d : PayrollResult) :
  List.NoDup (map (payslip_path self) news) -> In d news ->
  fold_left (write_payslip self) news files !! payslip_path self d =
  Some (payslip_document d).
Proof.
  revert files. induction news as [|x news IH]; intros files Hnd Hin;
    [destruct Hin|].
  simpl in Hnd. inversion Hnd as [|? ? Hnotin Hnd']; subst. simpl.
  destruct Hin as [-> | Hin].
  - rewrite fold_write_other.
    + unfold write_payslip. apply lookup_insert_eq.
    + apply Forall_forall. intros y Hy Heq. apply Hnotin. rewrite <- Heq.
      apply in_map. apply list_elem_of_In. exact Hy.
  - apply IH; assumption.
Qed.

(** X13. When the ids of the results of [generate_all_payslips] are
    pairwise different, no document of the run is overwritten by another:
    afterwards every result's path holds that result's document. This
    holds when the clock gives one label throughout the run, and when it
    gives month labels, the same or not. *)
Theorem generate_all_payslips_distinct_ids (str_num : num -> string)
    (open_error : string -> option exn) (clock : nat -> string)
    (self : PayrollAgent) (files files' : gmap string Document)
    (results : list PayrollResult) :
  generate_all_payslips str_num open_error clock self files =
    (Return results, files') ->
  (forall i j, clock i = clock j) \/ (forall i, month_label (clock i)) ->
  List.NoDup (map emp_id results) ->
  forall d, In d results ->
    pdf_path d = Some (payslip_path self d) /\
    files' !! payslip_path self d = Some (payslip_document d).
Proof.
  intros Hgen Hclock Hnd. unfold generate_all_payslips, data_item in Hgen.
  destruct (data self !! "salary") as [salary|]; [|discriminate].
  destruct (payslips_loop_returns _ _ _ _ _ _ _ _ _ Hgen)
    as (news & -> & Hres & ->). cbn [app] in *.
  assert (Hmonth : Forall (fun d => (exists i, month d = clock i) /\
                                    pdf_path d = Some (payslip_path self d))
                          news).
  { clear -Hres. induction Hres as [|ir d l k (p & [Hp _] & ->) _ IH];
      constructor; [|exact IH].
    split; [|reflexivity]. exists (fst ir).
    exact (proj2 (calculate_payroll_identity _ _ _ _ _ Hp)). }
  rewrite Forall_forall in Hmonth.
  assert (Hinj : forall x y, In x news -> In y news ->
            payslip_path self y = payslip_path self x -> emp_id y = emp_id x).
  { intros x y Hx Hy Heq.
    destruct (Hmonth x (proj2 (list_elem_of_In _ _) Hx)) as [[i Hi] _].
    destruct (Hmonth y (proj2 (list_elem_of_In _ _) Hy)) as [[j Hj] _].
    destruct Hclock as [Hsame | Hlabel].
    - apply (payslip_path_injective_ids self y x); [|exact Heq].
      rewrite Hi, Hj. apply Hsame.
    - apply (payslip_path_injective_labels self y x); [| |exact Heq].
      + rewrite Hj. apply Hlabel.
      + rewrite Hi. apply Hlabel. }
  assert (Hpaths : List.NoDup (map (payslip_path self) news)).
  { clear -Hnd Hinj. induction news as [|x news IH]; [constructor|].
    simpl in *. inversion Hnd as [|? ? Hnotin Hnd']; subst. constructor.
    - intros Hin. apply in_map_iff in Hin as (y & Heq & Hy). apply Hnotin.
      apply in_map_iff. exists y. split; [|exact Hy].
      apply Hinj; [left; reflexivity | right; exact Hy | exact Heq].
    - apply IH; [exact Hnd'|]. intros a b Ha Hb. apply Hinj; right; assumption. }
  intros d Hin. split.
  - apply Hmonth. apply list_elem_of_In. exact Hin.
  - apply fold_write_exact; assumption.
Qed.

(** A clock that passes a month end after the first row. *)
Definition month_end_clock (i : nat) : string :=
  match i with
  | O => "March 2026"
  | S _ => "April 2026"
  end.

Lemma generate_all_payslips_distinct_ids_witness :
  exists results files',
    generate_all_payslips (fun _ => "") (flat_directory "payslips")
      month_end_clock agent_two_employees ∅
      = (Return results, files') /\
    map month results = ["March 2026"; "April 2026"] /\
    Forall (fun d => files' !! payslip_path agent_two_employees d
                     = Some (payslip_document d)) results.
Proof.
  eexists _, _. split; [reflexivity|]. split; [reflexivity|].
  apply Forall_forall. intros d Hd.
  refine (proj2 (generate_all_payslips_distinct_ids (fun _ => "")
                   (flat_directory "payslips") month_end_clock
                   agent_two_employees ∅ _ _ eq_refl _ _ d _)).
  - right. intros [|i].
    + exists "March", "2026". repeat split.
    + exists "April", "2026". repeat split.
  - repeat constructor; simpl; intuition discriminate.
  - apply list_elem_of_In. exact Hd.
Defined.

(** ** Loading again *)

(** What a load that answers [True] has done. *)
Lemma load_true_inv (disk : string -> outcome Workbook) (self self' : PayrollAgent)
    (path : string) :
  load_uploaded_excel disk self path = Return (self', true) ->
  exists xls salary att,
    disk path = Return xls /\
    scan_salary xls (sheet_names xls) None = Return (Some salary) /\
    scan_attendance xls (sheet_names xls) None = Return att /\
    self' = set_data self
              (<["attendance" := default empty_frame att]>
                 (<["salary" := salary]> (data self))).
Proof.
  unfold load_uploaded_excel, load_body.
  destruct (disk path) as [xls|] eqn:Hd; [|discriminate].
  cbn [mbind outcome_bind].
  destruct (scan_salary xls (sheet_names xls) None) as [[salary|]|] eqn:Hs;
    cbn [mbind outcome_bind].
  - destruct (scan_attendance xls (sheet_names xls) None) as [att|] eqn:Ha;
      [|discriminate].
    cbn [mbind outcome_bind try_except]. intros H. injection H as <-.
    exists xls, salary, att. repeat split; assumption.
  - destruct (scan_attendance xls (sheet_names xls) None); discriminate.
  - discriminate.
Qed.

Lemma load_outcome (disk : string -> outcome Workbook) (self : PayrollAgent)
    (path : string) :
  exists self' ok, load_uploaded_excel disk self path = Return (self', ok).
Proof.
  unfold load_uploaded_excel.
  destruct (load_body disk self path); cbn; eexists _, _; reflexivity.
Qed.

(** X14. A load never raises. When it answers [False] the agent is as it
    was, so the tables of an earlier load stay in use; when it answers
    [True] the keys [salary] and [attendance] are set and nothing else of
    the agent changes. *)
Theorem load_uploaded_excel_effect (disk : string -> outcome Workbook)
    (self : PayrollAgent) (path : string) :
  exists self' ok,
    load_uploaded_excel disk self path = Return (self', ok) /\
    (ok = false -> self' = self) /\
    (ok = true ->
       is_Some (data self' !! "salary") /\
       is_Some (data self' !! "attendance") /\
       (forall key, key <> "salary" -> key <> "attendance" ->
          data self' !! key = data self !! key) /\
       policies self' = policies self /\
       payslip_dir self' = payslip_dir self).
Proof.
  destruct (load_outcome disk self path) as (self' & ok & Hload).
  exists self', ok. split; [exact Hload|]. split.
  - intros ->. exact (failed_load_keeps_agent _ _ _ _ Hload).
  - intros ->. destruct (load_true_inv _ _ _ _ Hload)
      as (xls & salary & att & _ & _ & _ & ->).
    cbn [set_data data policies payslip_dir]. repeat split.
    + rewrite lookup_insert_ne by discriminate. rewrite lookup_insert_eq.
      eexists; reflexivity.
    + rewrite lookup_insert_eq. eexists; reflexivity.
    + intros key Hs Ha. rewrite !lookup_insert_ne by congruence. reflexivity.
Qed.

Lemma tables_insert_twice (m : gmap string DataFrame) (a1 x1 a2 x2 : DataFrame) :
  <["attendance" := a2]> (<["salary" := x2]>
     (<["attendance" := a1]> (<["salary" := x1]> m))) =
  <["attendance" := a2]> (<["salary" := x2]> m).
Proof.
  apply map_eq. intros k.
  destruct (decide (k = "attendance")), (decide (k = "salary"));
    simplify_map_eq; done.
Qed.

(** X15. Loads do not merge: after a successful load, a second successful
    load leaves exactly the agent that the second load alone would have
    left. *)
Theorem load_replaces_tables (disk : string -> outcome Workbook)
    (self s1 s2 : PayrollAgent) (path1 path2 : string) :
  load_uploaded_excel disk self path1 = Return (s1, true) ->
  load_uploaded_excel disk self path2 = Return (s2, true) ->
  load_uploaded_excel disk s1 path2 = Return (s2, true).
Proof.
  intros H1 H2.
  destruct (load_true_inv _ _ _ _ H1) as (x1 & sal1 & att1 & _ & _ & _ & ->).
  destruct (load_true_inv _ _ _ _ H2) as (x2 & sal2 & att2 & Hd & Hs & Ha & ->).
  unfold load_uploaded_excel, load_body. rewrite Hd.
  cbn [mbind outcome_bind]. rewrite Hs. cbn [mbind outcome_bind].
  rewrite Ha. cbn [mbind outcome_bind try_except].
  unfold set_data. cbn [data policies payslip_dir].
  rewrite tables_insert_twice. reflexivity.
Qed.

Definition two_files (path : string) : outcome Workbook :=
  if String.eqb path "january.xlsx" then Return sample_workbook
  else if String.eqb path "february.xlsx"
  then Return [{| sheet_name := "Pay"; sheet_frame := two_employees |}]
  else Raise (FileNotFoundError path).

Lemma load_replaces_tables_witness :
  exists s1 s2,
    load_uploaded_excel two_files (init "payslips") "january.xlsx"
      = Return (s1, true) /\
    load_uploaded_excel two_files (init "payslips") "february.xlsx"
      = Return (s2, true) /\
    load_uploaded_excel two_files s1 "february.xlsx" = Return (s2, true).
Proof.
  eexists _, _. split; [reflexivity|]. split; [reflexivity|].
  exact (load_replaces_tables two_files (init "payslips") _ _
           "january.xlsx" "february.xlsx" eq_refl eq_refl).
Defined.

Lemma dropna_all_rows (df : DataFrame) :
  Forall (fun r => forallb is_na r = false) (rows (dropna_all df)).
Proof.
  unfold dropna_all. cbn [rows].
  induction (rows df) as [|r l IH]; simpl; [constructor|].
  destruct (forallb is_na r) eqn:Hr; cbn [negb]; [exact IH|].
  constructor; assumption.
Qed.

Lemma scan_salary_clean (xls : Workbook) (names : list string)
    (acc : option DataFrame) (df : DataFrame) :
  scan_salary xls names acc = Return (Some df) ->
  acc = Some df \/ exists d0, df = dropna_all d0.
Proof.
  revert acc. induction names as [|n names IH]; intros acc; simpl.
  - intros H. injection H as ->. left. reflexivity.
  - destruct (read_excel_nrows xls n 5) as [t|]; [|discriminate].
    cbn [mbind outcome_bind].
    destruct (has_salary_header t) as [[|]|]; cbn [mbind outcome_bind];
      [| apply IH | discriminate].
    destruct (read_excel xls n) as [d|]; [|discriminate].
    cbn [mbind outcome_bind]. intros H.
    destruct (IH _ H) as [Heq | Hex]; [|right; exact Hex].
    injection Heq as <-. right. exists d. reflexivity.
Qed.

Lemma scan_attendance_clean (xls : Workbook) (names : list string)
    (acc : option DataFrame) (att : option DataFrame) :
  scan_attendance xls names acc = Return att ->
  att = acc \/ exists d0, att = Some (dropna_all d0).
Proof.
  revert acc. induction names as [|n names IH]; intros acc; simpl.
  - intros H. injection H as ->. left. reflexivity.
  - destruct (is_attendance_name n).
    + destruct (read_excel xls n) as [d|]; [|discriminate].
      cbn [mbind outcome_bind]. intros H.
      destruct (IH _ H) as [-> | Hex]; [|right; exact Hex].
      right. exists d. reflexivity.
    + apply IH.
Qed.

(** X16. After a load that answers [True], neither the salary table nor
    the attendance table has a row whose cells are all empty. *)
Theorem loaded_tables_have_no_empty_rows (disk : string -> outcome Workbook)
    (self self' : PayrollAgent) (path key : string) (df : DataFrame) :
  load_uploaded_excel disk self path = Return (self', true) ->
  key = "salary" \/ key = "attendance" ->
  data self' !! key = Some df ->
  Forall (fun r => forallb is_na r = false) (rows df).
Proof.
  intros Hload Hkey Hdf.
  destruct (load_true_inv _ _ _ _ Hload)
    as (xls & salary & att & _ & Hs & Ha & ->).
  cbn [set_data data] in Hdf. destruct Hkey as [-> | ->].
  - rewrite lookup_insert_ne in Hdf by discriminate.
    rewrite lookup_insert_eq in Hdf. injection Hdf as <-.
    destruct (scan_salary_clean _ _ _ _ Hs) as [Hn | [d0 ->]];
      [discriminate | apply dropna_all_rows].
  - rewrite lookup_insert_eq in Hdf. injection Hdf as <-.
    destruct (scan_attendance_clean _ _ _ _ Ha) as [-> | [d0 ->]].
    + constructor.
    + apply dropna_all_rows.
Qed.

Lemma loaded_tables_have_no_empty_rows_witness :
  exists self' df,
    load_uploaded_excel two_files (init "payslips") "january.xlsx"
      = Return (self', true) /\
    data self' !! "salary" = Some df /\
    Forall (fun r => forallb is_na r = false) (rows df).
Proof.
  eexists _, _. split; [reflexivity|]. split; [reflexivity|].
  exact (loaded_tables_have_no_empty_rows two_files (init "payslips") _
           "january.xlsx" "salary" _ eq_refl (or_introl eq_refl) eq_refl).
Defined.

(** ** Policy notes, for every text *)

Lemma digits_value_nonneg (s : string) (acc : Z) :
  0 <= acc -> 0 <= digits_value acc s.
Proof.
  revert acc. induction s as [|c s IH]; intros acc Hacc; simpl; [exact Hacc|].
  apply IH. unfold digit_value. lia.
Qed.

Lemma drop_prefix_some (p s rest : string) :
  drop_prefix p s = Some rest -> String.prefix p s = true.
Proof.
  destruct (String.prefix p s) eqn:Hp; [reflexivity|].
  rewrite (drop_prefix_none _ _ Hp). discriminate.
Qed.

Lemma pf_cap_search_contains (text d : string) :
  pf_cap_search text = Some d -> contains "pf cap" text = true.
Proof.
  induction text as [|c text IH]; cbn [pf_cap_search contains].
  - unfold pf_cap_match_here.
    destruct (drop_prefix "pf cap" "") eqn:Hp; [|discriminate].
    rewrite (drop_prefix_some _ _ _ Hp). reflexivity.
  - unfold pf_cap_match_here.
    destruct (drop_prefix "pf cap" (String c text)) as [rest|] eqn:Hp.
    + rewrite (drop_prefix_some _ _ _ Hp). reflexivity.
    + intros H. rewrite (IH H). apply orb_true_r.
Qed.

Lemma set_policies_same (self : PayrollAgent) :
  set_policies self (policies self) = self.
Proof. destruct self; reflexivity. Qed.

(** X17. Notes that contain neither [encash], nor [pt 250], nor [pf cap],
    in any letter case, leave the agent exactly as it was. *)
Theorem update_policy_without_keywords (self : PayrollAgent) (text : string) :
  contains "encash" (lower text) = false ->
  contains "pt 250" (lower text) = false ->
  contains "pf cap" (lower text) = false ->
  update_policy self text = self.
Proof.
  intros Hen Hpt Hcap. unfold update_policy. cbn [existsb].
  assert (Hle : contains "leave encashment" (lower text) = false).
  { destruct (contains "leave encashment" _) eqn:Hc; [|reflexivity].
    apply contains_spec in Hc as (a & b & Hab).
    rewrite <- Hen. symmetry. rewrite Hab.
    change "leave encashment" with ("leave " +:+ "encash" +:+ "ment").
    rewrite !append_assoc, <- (append_assoc a "leave ").
    apply contains_spec. eexists _, _. reflexivity. }
  rewrite Hen, Hle, Hpt. cbn [orb].
  destruct (pf_cap_search (lower text)) as [d|] eqn:Hs.
  - apply pf_cap_search_contains in Hs. congruence.
  - apply set_policies_same.
Qed.

Lemma update_policy_without_keywords_witness :
  update_policy (init "payslips") "Bonus is paid in March. Provident fund as before."
  = init "payslips".
Proof.
  apply (update_policy_without_keywords (init "payslips")
           "Bonus is paid in March. Provident fund as before.");
    reflexivity.
Defined.

(** X18. Whatever the notes say, [update_policy] leaves the PF rate, the
    ESI rate and threshold, the encashment day limit, the loaded tables and
    the output directory alone; it can switch leave encashment on but
    never off; the professional tax stays or becomes 250; the PF cap stays
    or becomes a non-negative whole number. *)
Theorem update_policy_touches_three_fields (self : PayrollAgent) (text : string) :
  pf_rate (policies (update_policy self text)) = pf_rate (policies self) /\
  esi_employee_rate (policies (update_policy self text))
    = esi_employee_rate (policies self) /\
  esi_threshold (policies (update_policy self text))
    = esi_threshold (policies self) /\
  encash_max_days (policies (update_policy self text))
    = encash_max_days (policies self) /\
  data (update_policy self text) = data self /\
  payslip_dir (update_policy self text) = payslip_dir self /\
  (leave_encashment (policies self) = true ->
   leave_encashment (policies (update_policy self text)) = true) /\
  (pt_amount (policies (update_policy self text)) = pt_amount (policies self) \/
   pt_amount (policies (update_policy self text)) = Fin 250) /\
  (pf_cap (policies (update_policy self text)) = pf_cap (policies self) \/
   exists z, 0 <= z /\
             pf_cap (policies (update_policy self text)) = num_of_Z z).
Proof.
  unfold update_policy.
  destruct (existsb _ _); destruct (contains "pt 250" _);
    destruct (pf_cap_search _) as [d|];
    cbn; repeat split; auto;
    right; exists (digits_value 0 d);
    (split; [apply digits_value_nonneg; lia | reflexivity]).
Qed.

(** X19. Applying the same notes twice changes nothing more than applying
    them once. *)
Theorem update_policy_idempotent (self : PayrollAgent) (text : string) :
  update_policy (update_policy self text) text = update_policy self text.
Proof.
  unfold update_policy.
  destruct (existsb _ _); destruct (contains "pt 250" _);
    destruct (pf_cap_search _); reflexivity.
Qed.

(** ** Employee list *)

Lemma employees_loop_returns (str_num : num -> string) (todo : list Row)
    (acc res : list EmployeeRecord) :
  employees_loop str_num todo acc = Return res ->
  exists news,
    res = acc ++ news /\
    Forall2 (fun row e => employee_record str_num row = Return e) todo news.
Proof.
  revert acc. induction todo as [|row todo IH]; intros acc; simpl.
  - intros H. injection H as <-. exists []. rewrite app_nil_r.
    split; [reflexivity | constructor].
  - destruct (employee_record str_num row) as [e|] eqn:He; [|discriminate].
    cbn [mbind outcome_bind]. intros H.
    destruct (IH _ H) as (news & -> & Hall).
    exists (e :: news). rewrite <- app_assoc.
    split; [reflexivity | constructor; assumption].
Qed.

Lemma employees_loop_total (str_num : num -> string) (todo : list Row)
    (acc : list EmployeeRecord) :
  Forall (fun row => exists e, employee_record str_num row = Return e) todo ->
  exists res, employees_loop str_num todo acc = Return res.
Proof.
  intros Hall. revert acc.
  induction Hall as [|row todo [e He] _ IH]; intros acc; simpl.
  - eexists. reflexivity.
  - rewrite He. cbn [mbind outcome_bind]. apply IH.
Qed.

(** A row's entry in the list. *)
Definition listed_as (str_num : num -> string) (salary : DataFrame)
    (cells : list Cell) (e : EmployeeRecord) : Prop :=
  employee_record str_num (series salary cells) = Return e.

(** X20. When every row of a non-empty salary table converts,
    [get_employee_list] returns one entry a row, in table order. *)
Theorem get_employee_list_complete (str_num : num -> string)
    (self : PayrollAgent) (salary : DataFrame) :
  data self !! "salary" = Some salary ->
  df_empty salary = false ->
  Forall (fun cells => exists e, listed_as str_num salary cells e) (rows salary) ->
  exists employees,
    get_employee_list str_num self = Return employees /\
    Forall2 (listed_as str_num salary) (rows salary) employees.
Proof.
  intros Hs Hne Hall. unfold get_employee_list. rewrite Hs, Hne.
  destruct (employees_loop_total str_num (map (series salary) (rows salary)) [])
    as [res Hres]; [apply Forall_map; exact Hall|].
  exists res. split; [exact Hres|].
  destruct (employees_loop_returns _ _ _ _ Hres) as (news & -> & Hnews).
  exact (Forall2_map_l (series salary)
           (fun row e => employee_record str_num row = Return e) _ _ Hnews).
Qed.

Lemma get_employee_list_complete_witness :
  exists employees,
    get_employee_list (fun _ => "") agent_two_employees = Return employees /\
    map e_emp_id employees = ["E10"; "E1"].
Proof.
  destruct (get_employee_list_complete (fun _ => "") agent_two_employees
              two_employees) as (employees & Hget & Hall).
  - reflexivity.
  - reflexivity.
  - repeat constructor; eexists; reflexivity.
  - exists employees. split; [exact Hget|].
    inversion Hall as [|c1 e1 l1 k1 H1 Hrest]; subst.
    inversion Hrest as [|c2 e2 l2 k2 H2 Hnil]; subst.
    inversion Hnil; subst.
    vm_compute in H1, H2. injection H1 as <-. injection H2 as <-.
    reflexivity.
Defined.

(** X21. [get_employee_list] returns the empty list exactly when the table
    [get_salary_data] hands out is empty, which it is when no salary table
    is loaded; it does not raise for a missing table. *)
Theorem get_employee_list_empty_iff (str_num : num -> string)
    (self : PayrollAgent) :
  get_employee_list str_num self = Return [] <->
  df_empty (get_salary_data self) = true.
Proof.
  unfold get_employee_list, get_salary_data.
  destruct (data self !! "salary") as [salary|]; [|split; reflexivity].
  change (default empty_frame (Some salary)) with salary.
  destruct (df_empty salary) eqn:He; [split; reflexivity|].
  split; [|discriminate]. intros H. exfalso.
  unfold df_empty in He. destruct (columns salary); [discriminate|].
  destruct (rows salary) as [|cells rest]; [discriminate|].
  cbn [map employees_loop] in H.
  destruct (employee_record str_num (series salary cells)) as [e|];
    [|discriminate].
  cbn [mbind outcome_bind] in H.
  destruct (employees_loop_returns _ _ _ _ H) as (news & Heq & _).
  discriminate Heq.
Qed.

Lemma listed_amount_number (x : option Q) :
  exists a,
    py_float (py_or (default (CNum (Fin 0)) ((fun q => CNum (Fin q)) <$> x))
                    (CNum (Fin 0))) = Return a.
Proof.
  destruct x as [q|]; cbn; [|eexists; reflexivity].
  unfold py_or, truthy. destruct (negb (is_zero (Fin q))); eexists; reflexivity.
Qed.

Lemma py_or_falsy (c alt : Cell) : truthy c = false -> py_or c alt = alt.
Proof. unfold py_or. now intros ->. Qed.

(** X22. A numeric column whose cell is [None], empty text or 0 is listed
    as 0 by [get_employee_list]'s row conversion; with [None] or empty text
    in the Basic column the same row makes the resolution of
    [calculate_payroll] raise. *)
Theorem employee_record_blank_basic (str_num : num -> string) (r : Row)
    (c : Cell) (hra other gross : option Q) :
  first_cell r kw_basic = Some c ->
  truthy c = false ->
  field_holds r kw_hra hra ->
  field_holds r kw_other other ->
  field_holds r kw_gross gross ->
  (exists e, employee_record str_num r = Return e /\ e_basic_da e = Fin 0) /\
  (c = CNone \/ c = CText "" -> exists ex, resolve r = Raise ex).
Proof.
  unfold field_holds. intros Hb Hc Hh Ho Hg. split.
  - unfold employee_record.
    rewrite (get_first_cell r kw_basic), Hb.
    change (default (CNum (Fin 0)) (Some c)) with c.
    rewrite (py_or_falsy c _ Hc). cbn [py_float mbind outcome_bind].
    rewrite (get_first_cell r kw_hra), Hh.
    destruct (listed_amount_number hra) as [a1 ->]. cbn [mbind outcome_bind].
    rewrite (get_first_cell r kw_other), Ho.
    destruct (listed_amount_number other) as [a2 ->]. cbn [mbind outcome_bind].
    rewrite (get_first_cell r kw_gross), Hg.
    destruct (listed_amount_number gross) as [a3 ->]. cbn [mbind outcome_bind].
    eexists. split; reflexivity.
  - intros Hblank. unfold resolve.
    rewrite (get_first_cell r kw_basic), Hb.
    change (default (CNum (Fin 0)) (Some c)) with c.
    destruct Hblank as [-> | ->]; eexists; reflexivity.
Qed.

Definition row_blank_basic : Row := [
  ("Emp Code", CText "E001"); ("Basic", CText ""); ("HRA", CNum (Fin 8000))
].

Lemma employee_record_blank_basic_witness :
  (exists e, employee_record (fun _ => "") row_blank_basic = Return e /\
             e_basic_da e = Fin 0) /\
  exists ex, resolve row_blank_basic = Raise ex.
Proof.
  destruct (employee_record_blank_basic (fun _ => "") row_blank_basic
              (CText "") (Some 8000%Q) None None
              eq_refl eq_refl eq_refl eq_refl eq_refl) as [He Hr].
  split; [exact He | apply Hr; right; reflexivity].
Defined.

(** X23. For a row without a gross column, [get_employee_list] lists the
    gross salary as 0, while [calculate_payroll] resolves it to
    basic + HRA + other allowances. *)
Theorem gross_default_differs (str_num : num -> string) (r : Row)
    (basic hra other days tds : option Q) :
  field_holds r kw_basic basic ->
  field_holds r kw_hra hra ->
  field_holds r kw_other other ->
  field_holds r kw_gross None ->
  field_holds r kw_days days ->
  field_holds r kw_tds tds ->
  exists e res,
    employee_record str_num r = Return e /\
    resolve r = Return res /\
    e_gross_salary e = Fin 0 /\
    res_gross_salary res =
      num_add (num_add (Fin (default 0%Q basic)) (Fin (default 0%Q hra)))
              (Fin (default 0%Q other)).
Proof.
  unfold field_holds. intros Hb Hh Ho Hg Hd Ht.
  assert (He : exists e, employee_record str_num r = Return e /\
                         e_gross_salary e = Fin 0).
  { unfold employee_record.
    rewrite (get_first_cell r kw_basic), Hb.
    destruct (listed_amount_number basic) as [a0 ->]. cbn [mbind outcome_bind].
    rewrite (get_first_cell r kw_hra), Hh.
    destruct (listed_amount_number hra) as [a1 ->]. cbn [mbind outcome_bind].
    rewrite (get_first_cell r kw_other), Ho.
    destruct (listed_amount_number other) as [a2 ->]. cbn [mbind outcome_bind].
    rewrite (get_first_cell r kw_gross), Hg. cbn.
    eexists. split; reflexivity. }
  destruct He as (e & He & Heg). exists e.
  unfold resolve.
  rewrite (get_first_cell r kw_basic), Hb. destruct basic; cbn.
  all: rewrite (get_first_cell r kw_hra), Hh; destruct hra; cbn.
  all: rewrite (get_first_cell r kw_other), Ho; destruct other; cbn.
  all: rewrite (get_first_cell r kw_gross), Hg; cbn.
  all: rewrite (get_first_cell r kw_days), Hd; destruct days; cbn.
  all: rewrite (get_first_cell r kw_tds), Ht; destruct tds; cbn.
  all: eexists; repeat split; assumption.
Qed.

Lemma gross_default_differs_witness :
  exists e res,
    employee_record (fun _ => "") row_without_gross = Return e /\
    resolve row_without_gross = Return res /\
    e_gross_salary e = Fin 0 /\ res_gross_salary res = Fin 28000.
Proof.
  destruct (gross_default_differs (fun _ => "") row_without_gross
              (Some 20000%Q) (Some 8000%Q) None (Some (61 # 2)%Q) None
              eq_refl eq_refl eq_refl eq_refl eq_refl eq_refl)
    as (e & res & He & Hr & Hg & Hs).
  exists e, res. repeat split; assumption.
Defined.

(** ** The service's policy hand-over and reload *)

Lemma set_policies_direct_items (agent : PayrollAgent) (policy : PolicyEntity) :
  set_policies_direct agent (policy_items policy) =
  set_policies agent {|
    pf_rate := ent_pf_rate policy;
    pf_cap := ent_pf_cap policy;
    esi_employee_rate := ent_esi_employee_rate policy;
    esi_threshold := ent_esi_threshold policy;
    pt_amount := ent_pt_amount policy;
    leave_encashment := ent_leave_encashment policy;
    encash_max_days := num_of_Z (ent_encash_max_days policy)
  |}.
Proof. reflexivity. Qed.


(** X24. [_apply_policy_to_agent] replaces the agent's policy by the stored
    one and then lets the notes overrule it: the four fields the notes
    cannot reach are the stored ones; without notes, or with empty notes,
    all seven are; notes that mention [pt 250] make the professional tax
    250 and notes that mention [encash] switch leave encashment on,
    whatever the stored values; the agent's earlier policy has no
    influence, and its tables are untouched. *)
Theorem apply_policy_notes_overrule (agent : PayrollAgent) (policy : PolicyEntity) :
  let after := policies (apply_policy_to_agent agent policy) in
  pf_rate after = ent_pf_rate policy /\
  esi_employee_rate after = ent_esi_employee_rate policy /\
  esi_threshold after = ent_esi_threshold policy /\
  encash_max_days after = num_of_Z (ent_encash_max_days policy) /\
  (ent_policy_text policy = None \/ ent_policy_text policy = Some "" ->
   pf_cap after = ent_pf_cap policy /\
   pt_amount after = ent_pt_amount policy /\
   leave_encashment after = ent_leave_encashment policy) /\
  (forall text, ent_policy_text policy = Some text ->
     (contains "pt 250" (lower text) = true -> pt_amount after = Fin 250) /\
     (contains "encash" (lower text) = true -> leave_encashment after = true)) /\
  (forall earlier,
     policies (apply_policy_to_agent (set_policies agent earlier) policy) = after) /\
  data (apply_policy_to_agent agent policy) = data agent.
Proof.
  intros after. subst after. unfold apply_policy_to_agent.
  rewrite set_policies_direct_items.
  destruct (ent_policy_text policy) as [text|] eqn:Ht.
  - destruct (String.eqb_spec text "") as [-> | Hne].
    + do 4 (split; [reflexivity|]).
      split; [intros _; repeat split|].
      split; [|split; reflexivity].
      intros t Heq. injection Heq as <-.
      split; intros H; vm_compute in H; discriminate H.
    + unfold update_policy. cbn [existsb policies set_policies].
      split; [|split; [|split; [|split; [|split; [|split; [|split]]]]]].
      1-4: destruct (contains "encash" _ || _); destruct (contains "pt 250" _);
           destruct (pf_cap_search _); reflexivity.
      * intros [Hn | Hs]; [discriminate | injection Hs as ->; contradiction].
      * intros t Heq. injection Heq as <-. split.
        -- intros ->. destruct (contains "encash" _ || _);
             destruct (pf_cap_search _); reflexivity.
        -- intros ->. cbn [orb]. destruct (contains "pt 250" _);
             destruct (pf_cap_search _); reflexivity.
      * intros earlier. reflexivity.
      * reflexivity.
  - do 4 (split; [reflexivity|]).
    split; [intros _; repeat split|].
    split; [intros t Heq; discriminate | split; reflexivity].
Qed.



(** ** Direct policy update *)

Definition policy_keys : list string :=
  ["pf_rate"; "pf_cap"; "esi_employee_rate"; "esi_threshold"; "pt_amount";
   "leave_encashment"; "encash_max_days"].

Lemma set_policy_key_unknown (p : Policies) (key : string) (v : PolicyValue) :
  ~ In key policy_keys -> set_policy_key p key v = p.
Proof.
  intros Hk. unfold set_policy_key.
  repeat match goal with
         | |- context [String.eqb key ?k] =>
             destruct (String.eqb_spec key k) as [-> | _];
             [exfalso; apply Hk; simpl; tauto|]
         end.
  reflexivity.
Qed.

(** X26. [set_policies_direct] takes over the known keys only: items whose
    key is not one of the seven policy keys change nothing, wherever they
    stand among the items, and the loaded tables are never touched. *)
Theorem set_policies_direct_ignores_unknown_keys (self : PayrollAgent)
    (items : list (string * PolicyValue)) :
  set_policies_direct self items =
  set_policies_direct self
    (List.filter (fun kv => existsb (String.eqb (fst kv)) policy_keys) items) /\
  data (set_policies_direct self items) = data self.
Proof.
  split; [|reflexivity]. unfold set_policies_direct. f_equal.
  generalize (policies self). induction items as [|[k v] items IH]; intros p;
    [reflexivity|].
  cbn [fold_left List.filter fst snd].
  destruct (existsb (String.eqb k) policy_keys) eqn:Hk.
  - cbn [fold_left fst snd]. apply IH.
  - rewrite set_policy_key_unknown; [apply IH|].
    intros Hin. assert (Ht : existsb (String.eqb k) policy_keys = true).
    { apply existsb_exists. exists k. split; [exact Hin | apply String.eqb_refl]. }
    congruence.
Qed.
